(** * streamlit-serpapi-search: a shallow embedding of [app.py]

    The development follows the layout of the script: the Python string
    primitives the script relies on, the two catalogs, [truncate_summary],
    [search_serpapi], [build_search_query], [save_selected_results] and the
    handlers of [main].

    Conventions.
    - A Python [str] is a Rocq [string]; a character stands for the code point
      of the same number, so the model covers texts over code points 0..255.
      [isspace], [isalnum] and [lower] follow the Unicode tables on that range.
    - A Python [int] is a [Z].
    - A [dict] whose iteration order matters is an association list in
      insertion order; a lookup takes the first binding of the key.
    - Code that may raise returns a [result]; code that talks to the outside
      (Streamlit, the network, the file system) returns an [io]: the events it
      performed, oldest first, and how it ended.
    - What the outside answers is an input: the provider's response, the
      table the data editor hands back for the table and column settings it
      was given, the clock, and whether each file operation succeeds. *)

From Stdlib Require Import String Ascii ZArith NArith List Bool Lia.
Import ListNotations.

Local Open Scope string_scope.
Local Open Scope Z_scope.

(** ** Python primitives *)

Module Py.

(** [str.isspace] on one character: U+0009..U+000D, U+001C..U+0020, U+0085
    and U+00A0. *)
Definition isspace (c : ascii) : bool :=
  let n := Z.of_N (N_of_ascii c) in
  ((9 <=? n) && (n <=? 13)) || ((28 <=? n) && (n <=? 32))
  || (n =? 133) || (n =? 160).

(** [str.isalnum] on one character: the ASCII digits and letters, and the
    Latin-1 letters and numeric characters. *)
Definition isalnum (c : ascii) : bool :=
  let n := Z.of_N (N_of_ascii c) in
  ((48 <=? n) && (n <=? 57)) || ((65 <=? n) && (n <=? 90))
  || ((97 <=? n) && (n <=? 122))
  || (n =? 170) || (n =? 178) || (n =? 179) || (n =? 181) || (n =? 185)
  || (n =? 186) || ((188 <=? n) && (n <=? 190))
  || ((192 <=? n) && (n <=? 214)) || ((216 <=? n) && (n <=? 246))
  || ((248 <=? n) && (n <=? 255)).

(** [str.lower] on one character. *)
Definition lower_char (c : ascii) : ascii :=
  let n := Z.of_N (N_of_ascii c) in
  if ((65 <=? n) && (n <=? 90)) || ((192 <=? n) && (n <=? 214))
     || ((216 <=? n) && (n <=? 222))
  then ascii_of_N (Z.to_N (n + 32)) else c.

Fixpoint lower (s : string) : string :=
  match s with
  | EmptyString => EmptyString
  | String c s' => String (lower_char c) (lower s')
  end.

(** Generator expression [x for x in s if keep x], joined back by [''.join]. *)
Fixpoint filter_chars (keep : ascii -> bool) (s : string) : string :=
  match s with
  | EmptyString => EmptyString
  | String c s' =>
      if keep c then String c (filter_chars keep s') else filter_chars keep s'
  end.

(** [sep.join(parts)]. *)
Definition join (sep : string) (parts : list string) : string :=
  String.concat sep parts.

(** [s.split()]: the maximal runs of non-space characters, in order.  [cur] is
    the run being read. *)
Fixpoint split_ws_from (cur : string) (s : string) : list string :=
  match s with
  | EmptyString => if (cur =? "")%string then [] else [cur]
  | String c s' =>
      if isspace c
      then (if (cur =? "")%string then split_ws_from "" s'
            else cur :: split_ws_from "" s')
      else split_ws_from (cur ++ String c "") s'
  end.

Definition split_ws (s : string) : list string := split_ws_from "" s.

(** [s.split(sep)] for a separator of one character: empty fields are kept. *)
Fixpoint split_on_from (sep : ascii) (cur : string) (s : string) : list string :=
  match s with
  | EmptyString => [cur]
  | String c s' =>
      if Ascii.eqb c sep then cur :: split_on_from sep "" s'
      else split_on_from sep (cur ++ String c "") s'
  end.

Definition split_on (sep : ascii) (s : string) : list string :=
  split_on_from sep "" s.

(** [s.replace(old, new)] for a non-empty [old]: occurrences are replaced from
    the left and do not overlap.  [skip] counts the characters of a matched
    occurrence still to be dropped. *)
Fixpoint replace_from (old new : string) (skip : nat) (s : string) : string :=
  match s with
  | EmptyString => EmptyString
  | String c s' =>
      match skip with
      | S k => replace_from old new k s'
      | O =>
          if String.prefix old s
          then new ++ replace_from old new (Nat.pred (String.length old)) s'
          else String c (replace_from old new O s')
      end
  end.

(** With an empty [old], Python puts [new] before every character and at the
    end. *)
Fixpoint intersperse_all (new : string) (s : string) : string :=
  match s with
  | EmptyString => new
  | String c s' => new ++ String c (intersperse_all new s')
  end.

Definition replace (old new : string) (s : string) : string :=
  if (old =? "")%string then intersperse_all new s
  else replace_from old new O s.

(** [s.lstrip()], [s.rstrip()] and [s.strip()]. *)
Fixpoint lstrip (s : string) : string :=
  match s with
  | EmptyString => EmptyString
  | String c s' => if isspace c then lstrip s' else s
  end.

Fixpoint rstrip (s : string) : string :=
  match s with
  | EmptyString => EmptyString
  | String c s' =>
      match rstrip s' with
      | EmptyString => if isspace c then EmptyString else String c EmptyString
      | r => String c r
      end
  end.

Definition strip (s : string) : string := rstrip (lstrip s).

(** [l[:k]] on a list: a negative [k] counts from the end. *)
Definition slice_to {A : Type} (l : list A) (k : Z) : list A :=
  if k <? 0 then firstn (Z.to_nat (Z.of_nat (List.length l) + k)) l
  else firstn (Z.to_nat k) l.

(** [s[:k]] on a string. *)
Definition str_slice_to (s : string) (k : Z) : string :=
  if k <? 0
  then String.substring 0 (Z.to_nat (Z.of_nat (String.length s) + k)) s
  else String.substring 0 (Z.to_nat k) s.

(** Truth value of a [str]. *)
Definition truthy (s : string) : bool := negb (s =? "")%string.

End Py.

(** ** Values, exceptions and effects *)

#[local] Set Warnings "-register-all".

(** A decoded JSON document, as [response.json()] returns it.  The text of a
    number is kept as it stands; the script never looks at it. *)
Inductive json : Type :=
| JNull
| JBool (b : bool)
| JNum (literal : string)
| JStr (s : string)
| JArr (items : list json)
| JObj (fields : list (string * json)).

(** The key a failed lookup reports. *)
Inductive pykey : Type :=
| KStr (s : string)
| KSlice (stop : Z).

(** What went wrong inside [requests]: every case is an instance of
    [requests.exceptions.RequestException]. *)
Inductive request_error : Type :=
| ConnectionFailure (text : string)
| HTTPError (status : Z)
| JSONDecodeError.

Inductive exn : Type :=
| RequestException (e : request_error)
| KeyError (key : pykey)
| AttributeError (attr : string)
| TypeError
| UnboundLocalError (name : string)
| OSError (file : string).

Inductive result (A : Type) : Type :=
| Return (a : A)
| Raise (e : exn).

Arguments Return {A} a.
Arguments Raise {A} e.

(** One row of the result table. *)
Record ResultRecord : Type := mkResult {
  selected : bool;
  title : json;
  summary : string;
  url : json
}.

Definition DataFrame : Type := list ResultRecord.

(** A row as exported: the [selected] column dropped. *)
Definition ExportRow : Type := (json * string * json)%type.

Inductive param : Type :=
| PStr (s : string)
| PInt (n : Z).

(** What the script does to the outside world. *)
Inductive event : Type :=
| HttpGet (target : string) (params : list (string * param))
| StError (text : string)
| StErrorExn (prefix : string) (e : exn)
| StWarning (text : string)
| StSuccess (text : string)
| StTextArea (label value : string)
| StDataEditor (df : DataFrame) (max_chars : Z)
| StDownloadButton (file_name : string)
| FileOpen (name mode : string)
| FileWrite (name text : string)
| ToCsv (name mode : string) (rows : list ExportRow).

(** A computation with effects: the events performed, then the outcome. *)
Definition io (A : Type) : Type := (list event * result A)%type.

Definition ret {A : Type} (a : A) : io A := ([], Return a).

Definition raise {A : Type} (e : exn) : io A := ([], Raise e).

Definition emit (ev : event) : io unit := ([ev], Return tt).

Definition lift {A : Type} (r : result A) : io A := ([], r).

Definition bind {A B : Type} (m : io A) (k : A -> io B) : io B :=
  match m with
  | (evs, Return a) => let (evs', r) := k a in (evs ++ evs', r)%list
  | (evs, Raise e) => (evs, Raise e)
  end.

(** [try: m  except ...: handler]: [handler e] is [None] when no clause
    matches [e]. *)
Definition try_except {A : Type} (m : io A) (handler : exn -> option (io A)) : io A :=
  match m with
  | (evs, Return a) => (evs, Return a)
  | (evs, Raise e) =>
      match handler e with
      | Some h => let (evs', r) := h in (evs ++ evs', r)%list
      | None => (evs, Raise e)
      end
  end.

Declare Scope io_scope.
Delimit Scope io_scope with io.
Notation "x <- m ;; k" := (bind m (fun x => k))
  (at level 61, m at next level, right associativity) : io_scope.
Notation "m ;;; k" := (bind m (fun _ => k))
  (at level 61, right associativity) : io_scope.

Definition rbind {A B : Type} (r : result A) (k : A -> result B) : result B :=
  match r with
  | Return a => k a
  | Raise e => Raise e
  end.

(** A [for] loop that appends one computed item per element and stops at the
    first exception. *)
Fixpoint for_each {A B : Type} (f : A -> result B) (l : list A) : result (list B) :=
  match l with
  | [] => Return []
  | x :: l' =>
      rbind (f x) (fun y => rbind (for_each f l') (fun ys => Return (y :: ys)))
  end.

(** [d[key]] and [d.get(key, default)] on a [dict]. *)
Fixpoint dict_lookup {V : Type} (key : string) (d : list (string * V)) : option V :=
  match d with
  | [] => None
  | (k, v) :: d' => if (k =? key)%string then Some v else dict_lookup key d'
  end.

Definition dict_get {V : Type} (key : string) (d : list (string * V)) (default : V) : V :=
  match dict_lookup key d with
  | Some v => v
  | None => default
  end.

Definition dict_item {V : Type} (key : string) (d : list (string * V)) : result V :=
  match dict_lookup key d with
  | Some v => Return v
  | None => Raise (KeyError (KStr key))
  end.

Definition nonempty {A : Type} (l : list A) : bool :=
  match l with
  | [] => false
  | _ :: _ => true
  end.

(** The line feed character. *)
Definition nl : string := String (ascii_of_nat 10) EmptyString.

(** [s * n]. *)
Fixpoint str_repeat (s : string) (n : nat) : string :=
  match n with
  | O => EmptyString
  | S n' => s ++ str_repeat s n'
  end.

(** ** Configuration and constants *)

Definition REGIONS : list (string * string) :=
  [ ("Poland", "pl");
    ("Czech Republic", "cz");
    ("Romania", "ro");
    ("France", "fr");
    ("Saudi Arabia", "sa") ].

Definition TARGETS : list (string * string) :=
  [ ("luxury travel market", "luxury travel market trends analysis");
    ("outbound luxury travel", "outbound luxury travel market trends analysis");
    ("airline news", "airline industry news updates");
    ("exclusive travel", "exclusive VIP travel experiences premium") ].

(** ** [truncate_summary] *)

Definition default_max_words : Z := 50.

(** [text] is whatever object the caller passes; only a [str] has [split]. *)
Definition truncate_summary (text : json) (max_words : Z) : result string :=
  match text with
  | JStr s =>
      let words := Py.split_ws s in
      if Z.of_nat (List.length words) <=? max_words then Return s
      else Return (Py.join " " (Py.slice_to words max_words) ++ "...")
  | _ => Raise (AttributeError "split")
  end.

(** ** [search_serpapi] *)

(** What the provider does with the one request of a search: the transport
    fails, or a response arrives with a status code and a body, which decodes
    as JSON or does not. *)
Inductive outcome : Type :=
| NetworkError (text : string)
| Responded (status_code : Z) (body : option json).

Definition base_url : string := "https://serpapi.com/search".

(** The [params] dictionary, in insertion order. *)
Definition request_params (query api_key : string) (num_results : Z)
    (region : option string) : list (string * param) :=
  [ ("q", PStr query); ("api_key", PStr api_key);
    ("engine", PStr "google"); ("num", PInt num_results) ]
  ++ match region with
     | Some code =>
         if Py.truthy code then [ ("gl", PStr code); ("hl", PStr "en") ] else []
     | None => []
     end.

(** [requests.get]: the request goes out; a transport failure raises. *)
Definition requests_get (params : list (string * param)) (o : outcome)
    : io (Z * option json) :=
  (emit (HttpGet base_url params) ;;;
   match o with
   | NetworkError text => raise (RequestException (ConnectionFailure text))
   | Responded status_code body => ret (status_code, body)
   end)%io.

(** [response.raise_for_status()]: the 4xx and 5xx codes raise. *)
Definition raise_for_status (status_code : Z) : result unit :=
  if (400 <=? status_code) && (status_code <? 600)
  then Raise (RequestException (HTTPError status_code))
  else Return tt.

(** [response.json()]: a body that is no JSON raises
    [requests.exceptions.JSONDecodeError]. *)
Definition response_json (body : option json) : result json :=
  match body with
  | Some data => Return data
  | None => Raise (RequestException JSONDecodeError)
  end.

(** [data.get("organic_results", [])]: only a [dict] has [get]. *)
Definition organic_results (data : json) : result json :=
  match data with
  | JObj fields => Return (dict_get "organic_results" fields (JArr []))
  | _ => Raise (AttributeError "get")
  end.

Fixpoint chars_of (s : string) : list json :=
  match s with
  | EmptyString => []
  | String c s' => JStr (String c EmptyString) :: chars_of s'
  end.

(** The body of the [for] loop: one hit becomes one record. *)
Definition process_result (hit : json) : result ResultRecord :=
  match hit with
  | JObj fields =>
      rbind (truncate_summary (dict_get "snippet" fields (JStr "No summary available"))
                              default_max_words)
        (fun summary =>
           Return {| selected := false;
                     title := dict_get "title" fields (JStr "No title");
                     summary := summary;
                     url := dict_get "link" fields (JStr "No URL available") |})
  | _ => Raise (AttributeError "get")
  end.

Section Search.

(** Whether [slice] objects are hashable in the running interpreter (they are
    from Python 3.12 on): indexing a [dict] by a slice then raises [KeyError]
    instead of [TypeError]. *)
Variable hashable_slices : bool.

(** [results[:num_results]], as the sequence the loop iterates over. *)
Definition take_results (results : json) (num_results : Z) : result (list json) :=
  match results with
  | JArr items => Return (Py.slice_to items num_results)
  | JStr s => Return (chars_of (Py.str_slice_to s num_results))
  | JObj _ =>
      if hashable_slices then Raise (KeyError (KSlice num_results))
      else Raise TypeError
  | JNull | JBool _ | JNum _ => Raise TypeError
  end.

(** The [try] block. *)
Definition search_attempt (query api_key : string) (num_results : Z)
    (region : option string) (o : outcome) : io (list ResultRecord) :=
  (response <- requests_get (request_params query api_key num_results region) o ;;
   lift (raise_for_status (fst response)) ;;;
   data <- lift (response_json (snd response)) ;;
   results <- lift (organic_results data) ;;
   hits <- lift (take_results results num_results) ;;
   lift (for_each process_result hits))%io.

(** The two [except] clauses. *)
Definition search_handler (e : exn) : option (io (list ResultRecord)) :=
  match e with
  | RequestException _ =>
      Some (emit (StErrorExn "Error making API request: " e) ;;; ret [])%io
  | KeyError _ =>
      Some (emit (StErrorExn "Error processing API response: " e) ;;; ret [])%io
  | _ => None
  end.

Definition search_serpapi (query api_key : string) (num_results : Z)
    (region : option string) (o : outcome) : io (list ResultRecord) :=
  try_except (search_attempt query api_key num_results region o) search_handler.

End Search.

(** ** [build_search_query] *)

Definition region_term (region : string) : string := "in " ++ region.

Definition build_search_query (selected_regions selected_targets : list string)
    (additional_terms : string) : result string :=
  rbind (for_each (fun target => dict_item target TARGETS) selected_targets)
    (fun target_parts =>
       let region_terms := map region_term selected_regions in
       let query_parts :=
         (target_parts
          ++ (if nonempty region_terms then [Py.join " OR " region_terms] else [])
          ++ (if Py.truthy additional_terms then [additional_terms] else []))%list in
       Return (Py.join " " query_parts)).

(** ** [save_selected_results] *)

(** [region_str]. *)
Definition region_str (selected_regions : list string) : string :=
  let joined :=
    if nonempty selected_regions then Py.join "_" selected_regions else "global" in
  Py.replace " " "_" (Py.lower joined).

Definition filename_char (x : ascii) : bool :=
  Py.isalnum x || Ascii.eqb x " " || Ascii.eqb x "-" || Ascii.eqb x "_".

Definition words_to_remove : list string := ["market"; "trends"; "analysis"; "in"].

(** [clean_query], as it stands when the file name is built. *)
Definition clean_query (search_query : string) : string :=
  let kept := Py.strip (Py.filter_chars filename_char (Py.str_slice_to search_query 30)) in
  let underscored := Py.replace " " "_" kept in
  let shortened :=
    fold_left (fun acc word => Py.replace word "" acc) words_to_remove underscored in
  Py.join "_" (filter Py.truthy (Py.split_on "_" shortened)).

Definition export_filename (search_query : string) (selected_regions : list string)
    (timestamp : string) : string :=
  region_str selected_regions ++ "_" ++ clean_query search_query ++ "_"
  ++ timestamp ++ ".csv".

(** [df[df['selected']].drop('selected', axis=1)]. *)
Definition selected_rows (df : DataFrame) : list ExportRow :=
  map (fun r => (title r, summary r, url r)) (filter selected df).

(** One operation on a file: the file system says whether it succeeds; when
    it does not, nothing is done to the file and [OSError] is raised. *)
Definition file_op (fs : event -> bool) (ev : event) (file : string) : io unit :=
  if fs ev then emit ev else raise (OSError file).

(** [timestamp] is the text [datetime.now().strftime("%Y%m%d_%H%M%S")] gives
    when the function runs, [fs] the answers of the file system. *)
Definition save_selected_results (fs : event -> bool) (df : DataFrame)
    (search_query : string) (selected_regions : list string) (timestamp : string)
    : io string :=
  let filename := export_filename search_query selected_regions timestamp in
  let selected_df := selected_rows df in
  (file_op fs (FileOpen filename "w") filename ;;;
   file_op fs (FileWrite filename ("# Search Query: " ++ search_query ++ nl)) filename ;;;
   file_op fs (FileWrite filename ("# Regions: " ++ Py.join ", " selected_regions ++ nl))
     filename ;;;
   file_op fs (FileWrite filename ("# Timestamp: " ++ timestamp ++ nl)) filename ;;;
   file_op fs (FileWrite filename ("#" ++ str_repeat "=" 50 ++ nl)) filename ;;;
   file_op fs (ToCsv filename "a" selected_df) filename ;;;
   ret filename)%io.

(** ** [main] *)

(** What one run of the script reads from the outside: the widgets, the
    provider's behaviour if a request is made, the table the data editor hands
    back for the table and the [max_chars] of the summary column it is given,
    the clock, and the answers of the file system. *)
Record inputs : Type := mkInputs {
  region_checked : string -> bool;
  target_checked : string -> bool;
  api_key : string;
  additional_terms : string;
  num_results : Z;
  summary_length : Z;
  search_clicked : bool;
  save_clicked : bool;
  provider : outcome;
  data_editor : DataFrame -> Z -> DataFrame;
  clock : string;
  file_system : event -> bool
}.

(** The checkbox loops: the catalog is walked in its own order. *)
Definition checked_keys (catalog : list (string * string)) (checked : string -> bool)
    : list string :=
  filter checked (map fst catalog).

(** A row of checkboxes after the user ticked the names of [ticks], in that
    order: a box is checked when its name was ticked. *)
Definition ticked (ticks : list string) (name : string) : bool :=
  existsb (String.eqb name) ticks.

(** Reading a local variable that may never have been assigned. *)
Definition read_local {A : Type} (name : string) (v : option A) : result A :=
  match v with
  | Some a => Return a
  | None => Raise (UnboundLocalError name)
  end.

(** [df['selected'].any()]. *)
Definition any_selected (df : DataFrame) : bool := existsb selected df.

Section Main.

Variable hashable_slices : bool.

(** The body of [if st.button("Search")].  [None] stands for the bare
    [return] that ends the run; otherwise the session's [search_results]. *)
Definition search_action (u : inputs) (selected_regions selected_targets : list string)
    (search_query : option string) (session : option DataFrame)
    : io (option (option DataFrame)) :=
  (if negb (Py.truthy (api_key u)) then
     emit (StError "Please enter your SERPAPI API key in the sidebar.") ;;; ret None
   else if negb (nonempty selected_regions || nonempty selected_targets
                 || Py.truthy (additional_terms u)) then
     emit (StError "Please select at least one region, target area, or enter search terms.") ;;;
     ret None
   else
     region_code <- lift (match selected_regions with
                          | first :: _ => rbind (dict_item first REGIONS)
                                                (fun code => Return (Some code))
                          | [] => Return None
                          end) ;;
     query <- lift (read_local "search_query" search_query) ;;
     results <- search_serpapi hashable_slices query (api_key u) (num_results u)
                               region_code (provider u) ;;
     if nonempty results then ret (Some (Some results))
     else emit (StWarning "No results found or an error occurred.") ;;;
          ret (Some session))%io.

(** The body of [if st.button("Save Selected Results")].  Opening the saved
    file for reading stands for opening it and reading it whole. *)
Definition save_action (u : inputs) (edited_df : DataFrame)
    (selected_regions : list string) (search_query : option string) : io unit :=
  (if any_selected edited_df then
     query <- lift (read_local "search_query" search_query) ;;
     filename <- save_selected_results (file_system u) edited_df query
                   selected_regions (clock u) ;;
     emit (StSuccess ("Selected results saved to " ++ filename)) ;;;
     file_op (file_system u) (FileOpen filename "r") filename ;;;
     emit (StDownloadButton filename)
   else
     emit (StWarning "Please select at least one result to save."))%io.

(** The display of the stored results: the data editor is given the table
    and the summary length, and hands back the edited table. *)
Definition results_view (u : inputs) (selected_regions : list string)
    (search_query : option string) (session : option DataFrame) : io unit :=
  match session with
  | Some df =>
      (emit (StDataEditor df (summary_length u)) ;;;
       if save_clicked u
       then save_action u (data_editor u df (summary_length u)) selected_regions
              search_query
       else ret tt)%io
  | None => ret tt
  end.

(** One run of the script on the session's [search_results]; the value is the
    [search_results] the run leaves behind.  Calls that only draw fixed text
    are left out. *)
Definition main (u : inputs) (session : option DataFrame) : io (option DataFrame) :=
  let selected_regions := checked_keys REGIONS (region_checked u) in
  let selected_targets := checked_keys TARGETS (target_checked u) in
  (search_query <-
     (if nonempty selected_regions || nonempty selected_targets then
        query <- lift (build_search_query selected_regions selected_targets
                                          (additional_terms u)) ;;
        emit (StTextArea "Generated search query:" query) ;;;
        ret (Some query)
      else ret None) ;;
   searched <-
     (if search_clicked u
      then search_action u selected_regions selected_targets search_query session
      else ret (Some session)) ;;
   match searched with
   | None => ret session
   | Some session' =>
       results_view u selected_regions search_query session' ;;;
       ret session'
   end)%io.

End Main.

(** ** Vocabulary of the properties *)

(** A string with no space character in it. *)
Fixpoint space_free (s : string) : bool :=
  match s with
  | EmptyString => true
  | String c s' => negb (Py.isspace c) && space_free s'
  end.

(** What [str.split()] calls a word. *)
Definition is_word (w : string) : Prop := w <> "" /\ space_free w = true.

(** Reading a pattern against a text: [expect lit s] is what follows [lit]
    at the start of [s], [digits n s] what follows [n] decimal digits. *)
Fixpoint expect (lit s : string) : option string :=
  match lit with
  | EmptyString => Some s
  | String c lit' =>
      match s with
      | EmptyString => None
      | String d s' => if Ascii.eqb c d then expect lit' s' else None
      end
  end.

Definition is_digit (c : ascii) : bool :=
  let n := Z.of_N (N_of_ascii c) in (48 <=? n) && (n <=? 57).

Fixpoint digits (n : nat) (s : string) : option string :=
  match n with
  | O => Some s
  | S n' =>
      match s with
      | EmptyString => None
      | String d s' => if is_digit d then digits n' s' else None
      end
  end.

(** Whether [s] is [head], eight digits, an underscore, six digits and
    [".csv"], and nothing else. *)
Definition matches_stamped (head s : string) : bool :=
  match expect head s with
  | Some s1 =>
      match digits 8 s1 with
      | Some s2 =>
          match expect "_" s2 with
          | Some s3 =>
              match digits 6 s3 with
              | Some s4 =>
                  match expect ".csv" s4 with
                  | Some rest => (rest =? "")%string
                  | None => false
                  end
              | None => false
              end
          | None => false
          end
      | None => false
      end
  | None => false
  end.

(** What a record owes to its hit. *)
Definition record_of_hit (hit : json) (r : ResultRecord) : Prop :=
  exists fields,
    hit = JObj fields
    /\ selected r = false
    /\ title r = dict_get "title" fields (JStr "No title")
    /\ truncate_summary (dict_get "snippet" fields (JStr "No summary available"))
                        default_max_words = Return (summary r)
    /\ url r = dict_get "link" fields (JStr "No URL available")
    /\ (dict_lookup "title" fields = None -> title r = JStr "No title")
    /\ (dict_lookup "snippet" fields = None -> summary r = "No summary available")
    /\ (dict_lookup "link" fields = None -> url r = JStr "No URL available").

(** Sixty words, and what cutting them at fifty gives. *)
Definition sixty_words : string :=
  "w1 w2 w3 w4 w5 w6 w7 w8 w9 w10 w11 w12 w13 w14 w15 w16 w17 w18 w19 w20 w21 w22 w23 w24 w25 w26 w27 w28 w29 w30 w31 w32 w33 w34 w35 w36 w37 w38 w39 w40 w41 w42 w43 w44 w45 w46 w47 w48 w49 w50 w51 w52 w53 w54 w55 w56 w57 w58 w59 w60".

Definition fifty_words_cut : string :=
  "w1 w2 w3 w4 w5 w6 w7 w8 w9 w10 w11 w12 w13 w14 w15 w16 w17 w18 w19 w20 w21 w22 w23 w24 w25 w26 w27 w28 w29 w30 w31 w32 w33 w34 w35 w36 w37 w38 w39 w40 w41 w42 w43 w44 w45 w46 w47 w48 w49 w50...".

(** A response whose one hit has none of the three fields. *)
Definition bare_hit_response : json :=
  JObj [("organic_results", JArr [JObj [("position", JNum "1")]])].

(** A response whose one hit has a [null] snippet. *)
Definition null_snippet_response : json :=
  JObj [("organic_results", JArr [JObj [("title", JStr "t"); ("snippet", JNull)]])].

(** The query of the export example, and a table of one row, not selected. *)
Definition poland_query : string :=
  "luxury travel market trends analysis in Poland".

Definition unselected_table : DataFrame :=
  [ {| selected := false; title := JStr "t"; summary := "s"; url := JStr "u" |} ].

(** A run in which the save button is pressed on a table the user left
    untouched, and a run in which a search is started with France and Poland
    ticked, in that order, while the provider is unreachable. *)
Definition save_run : inputs :=
  {| region_checked := ticked ["Poland"];
     target_checked := ticked [];
     api_key := "k";
     additional_terms := "";
     num_results := 10;
     summary_length := 300;
     search_clicked := false;
     save_clicked := true;
     provider := NetworkError "unreachable";
     data_editor := fun _ _ => unselected_table;
     clock := "20240315_101530";
     file_system := fun _ => true |}.

Definition search_run : inputs :=
  {| region_checked := ticked ["France"; "Poland"];
     target_checked := ticked [];
     api_key := "k";
     additional_terms := "";
     num_results := 10;
     summary_length := 300;
     search_clicked := true;
     save_clicked := false;
     provider := NetworkError "unreachable";
     data_editor := fun df _ => df;
     clock := "20240315_101530";
     file_system := fun _ => true |}.

(** The events that create or change a file. *)
Definition is_file_write (ev : event) : bool :=
  match ev with
  | FileOpen _ mode => negb (mode =? "r")%string
  | FileWrite _ _ => true
  | ToCsv _ _ _ => true
  | _ => false
  end.

(** The requests sent to the provider, oldest first. *)
Fixpoint requests_of (evs : list event) : list (list (string * param)) :=
  match evs with
  | [] => []
  | HttpGet _ params :: evs' => params :: requests_of evs'
  | _ :: evs' => requests_of evs'
  end.



(** Every event of [m] passes the test [p]. *)
Definition quiet {A : Type} (p : event -> bool) (m : io A) : Prop :=
  forallb p (fst m) = true.

Definition not_file_write (ev : event) : bool := negb (is_file_write ev).

Definition not_request (ev : event) : bool :=
  match ev with
  | HttpGet _ _ => false
  | _ => true
  end.




(** The events that show the results table. *)
Definition not_data_editor (ev : event) : bool :=
  match ev with
  | StDataEditor _ _ => false
  | _ => true
  end.

(** A file system on which every operation succeeds. *)
Definition files_ok : event -> bool := fun _ => true.

(** Every character of [s] passes the test [p]. *)
Fixpoint all_chars (p : ascii -> bool) (s : string) : bool :=
  match s with
  | EmptyString => true
  | String c s' => p c && all_chars p s'
  end.

(** The characters a clean query is made of: letters, digits, hyphen and
    underscore. *)
Definition slug_char (x : ascii) : bool :=
  Py.isalnum x || Ascii.eqb x "-" || Ascii.eqb x "_".

Definition not_space_char (x : ascii) : bool := negb (Ascii.eqb x " ").

Definition not_underscore (x : ascii) : bool := negb (Ascii.eqb x "_").

(** A hit the loop body can process: an object whose [snippet], if present,
    is a string. *)
Definition well_formed_hit (hit : json) : Prop :=
  exists fields,
    hit = JObj fields
    /\ (dict_lookup "snippet" fields = None
        \/ exists s, dict_lookup "snippet" fields = Some (JStr s)).

(** The exceptions that can leave [search_serpapi]. *)
Definition escapes_search (e : exn) : Prop :=
  (exists attr, e = AttributeError attr) \/ e = TypeError.



(** A run in which a search is started on free text alone, and a run in
    which a selected row is saved while nothing is checked. *)
Definition free_text_run : inputs :=
  {| region_checked := ticked [];
     target_checked := ticked [];
     api_key := "k";
     additional_terms := "hotels";
     num_results := 10;
     summary_length := 300;
     search_clicked := true;
     save_clicked := false;
     provider := NetworkError "unreachable";
     data_editor := fun df _ => df;
     clock := "20240315_101530";
     file_system := fun _ => true |}.

Definition selected_table : DataFrame :=
  [ {| selected := true; title := JStr "t"; summary := "s"; url := JStr "u" |} ].

Definition unchecked_save_run : inputs :=
  {| region_checked := ticked [];
     target_checked := ticked [];
     api_key := "k";
     additional_terms := "";
     num_results := 10;
     summary_length := 300;
     search_clicked := false;
     save_clicked := true;
     provider := NetworkError "unreachable";
     data_editor := fun _ _ => selected_table;
     clock := "20240315_101530";
     file_system := fun _ => true |}.

(** A run in which both buttons are pressed while no API key is entered. *)
Definition no_key_run : inputs :=
  {| region_checked := ticked ["Poland"];
     target_checked := ticked [];
     api_key := "";
     additional_terms := "";
     num_results := 10;
     summary_length := 300;
     search_clicked := true;
     save_clicked := true;
     provider := NetworkError "unreachable";
     data_editor := fun df _ => df;
     clock := "20240315_101530";
     file_system := fun _ => true |}.

(** A run in which the save button is pressed with Poland checked and the
    table handed back as it was shown. *)
Definition selected_save_run : inputs :=
  {| region_checked := ticked ["Poland"];
     target_checked := ticked [];
     api_key := "k";
     additional_terms := "";
     num_results := 10;
     summary_length := 100;
     search_clicked := false;
     save_clicked := true;
     provider := NetworkError "unreachable";
     data_editor := fun df _ => df;
     clock := "20240315_101530";
     file_system := fun _ => true |}.


(** * Properties *)

(** ** Strings and word splitting *)

Module StrFacts.

Lemma append_nil_r (s : string) : s ++ "" = s.
Proof. induction s as [|c s IH]; simpl; [reflexivity | now rewrite IH]. Qed.

Lemma append_assoc (a b c : string) : (a ++ b) ++ c = a ++ (b ++ c).
Proof. induction a as [|x a IH]; simpl; [reflexivity | now rewrite IH]. Qed.

Lemma append_eq_nil (a b : string) : a ++ b = "" -> a = "" /\ b = "".
Proof. destruct a; simpl; [auto | discriminate]. Qed.

Lemma eqb_nil_false (s : string) : s <> "" -> (s =? "")%string = false.
Proof. intro H. now apply String.eqb_neq. Qed.

Lemma space_free_app (a b : string) :
  space_free (a ++ b) = space_free a && space_free b.
Proof.
  induction a as [|c a IH]; simpl; [reflexivity|].
  now rewrite IH, andb_assoc.
Qed.

Lemma is_word_app (a b : string) :
  is_word a -> space_free b = true -> is_word (a ++ b).
Proof.
  intros [Hne Hsf] Hb. split.
  - intro H. apply append_eq_nil in H. tauto.
  - now rewrite space_free_app, Hsf, Hb.
Qed.

(** Every item [split] returns is a word. *)
Lemma split_ws_from_words (s cur : string) :
  space_free cur = true -> Forall is_word (Py.split_ws_from cur s).
Proof.
  revert cur. induction s as [|c s IH]; intros cur Hcur; simpl.
  - destruct (String.eqb_spec cur ""); constructor; [split; assumption | constructor].
  - destruct (Py.isspace c) eqn:Hc.
    + destruct (String.eqb_spec cur "").
      * now apply IH.
      * constructor; [split; assumption | now apply IH].
    + apply IH. rewrite space_free_app, Hcur. simpl. now rewrite Hc.
Qed.

Lemma split_ws_words (s : string) : Forall is_word (Py.split_ws s).
Proof. now apply split_ws_from_words. Qed.

(** Reading a space-free string only extends the current run. *)
Lemma split_ws_from_run (w cur rest : string) :
  space_free w = true ->
  Py.split_ws_from cur (w ++ rest) = Py.split_ws_from (cur ++ w) rest.
Proof.
  revert cur. induction w as [|c w IH]; intros cur Hw; simpl.
  - now rewrite append_nil_r.
  - simpl in Hw. apply andb_true_iff in Hw as [Hc Hw].
    apply negb_true_iff in Hc. rewrite Hc, IH by assumption.
    now rewrite append_assoc.
Qed.

(** Splitting words joined by single spaces gives the words back; a run in
    progress is glued to the first of them. *)
Lemma split_ws_from_join (ws : list string) (w cur : string) :
  is_word w -> Forall is_word ws ->
  Py.split_ws_from cur (Py.join " " (w :: ws)) = (cur ++ w) :: ws.
Proof.
  revert w cur. induction ws as [|w2 ws IH]; intros w cur Hw Hws.
  - unfold Py.join. simpl. rewrite <- (append_nil_r w) at 1.
    rewrite split_ws_from_run by apply Hw. simpl.
    rewrite eqb_nil_false; [reflexivity|].
    intro H. apply append_eq_nil in H. destruct Hw; tauto.
  - inversion Hws as [|? ? Hw2 Hws']; subst.
    change (Py.join " " (w :: w2 :: ws))
      with (w ++ String " " (Py.join " " (w2 :: ws))).
    rewrite split_ws_from_run by apply Hw.
    cbn [Py.split_ws_from]. change (Py.isspace " ") with true. cbn iota.
    rewrite eqb_nil_false.
    + f_equal. now rewrite (IH w2 "").
    + intro H. apply append_eq_nil in H. destruct Hw; tauto.
Qed.

Lemma split_ws_join (ws : list string) :
  Forall is_word ws -> Py.split_ws (Py.join " " ws) = ws.
Proof.
  destruct ws as [|w ws]; intro H; [reflexivity|].
  inversion H; subst. unfold Py.split_ws. now rewrite split_ws_from_join.
Qed.

(** Text appended to a joined list lands on its last item. *)
Lemma join_snoc_app (sep : string) (ws : list string) (w tail : string) :
  Py.join sep (ws ++ [w]) ++ tail = Py.join sep (ws ++ [w ++ tail]).
Proof.
  unfold Py.join. induction ws as [|a ws IH]; simpl; [reflexivity|].
  destruct ws as [|b ws]; simpl in *.
  - now rewrite !append_assoc.
  - rewrite !append_assoc. do 2 f_equal. exact IH.
Qed.

End StrFacts.

(** ** [truncate_summary] *)

Module TruncateFacts.

Import StrFacts.

Lemma firstn_words (n : nat) (ws : list string) :
  Forall is_word ws -> Forall is_word (firstn n ws).
Proof.
  revert ws. induction n as [|n IH]; intros ws H; [constructor|].
  destruct H as [|w ws Hw Hws]; simpl; constructor; auto.
Qed.

Lemma marker_word : space_free "..." = true.
Proof. reflexivity. Qed.

(** The words of a cut text when at least one word is kept. *)
Lemma split_cut (kept : list string) :
  kept <> [] -> Forall is_word kept ->
  Py.split_ws (Py.join " " kept ++ "...")
  = (removelast kept ++ [(last kept "" ++ "...")%string])%list.
Proof.
  intros Hne Hw.
  rewrite (app_removelast_last "" Hne) at 1.
  rewrite join_snoc_app. apply split_ws_join.
  rewrite (app_removelast_last "" Hne) in Hw.
  apply Forall_app in Hw as [Hinit Hlast].
  apply Forall_app. split; [assumption|].
  inversion Hlast; subst. constructor; [|constructor].
  apply is_word_app; [assumption | exact marker_word].
Qed.

(** A text of more words than [max_words] is cut. *)
Lemma truncate_long_value (text : string) (max_words : Z) :
  0 <= max_words < Z.of_nat (List.length (Py.split_ws text)) ->
  truncate_summary (JStr text) max_words
  = Return (Py.join " " (firstn (Z.to_nat max_words) (Py.split_ws text)) ++ "...").
Proof.
  intros [Hlo Hhi]. unfold truncate_summary.
  destruct (Z.leb_spec (Z.of_nat (List.length (Py.split_ws text))) max_words);
    [lia|].
  unfold Py.slice_to. destruct (Z.ltb_spec max_words 0); [lia | reflexivity].
Qed.

(** A cut text has as many words as were kept, and one when none was. *)
Lemma cut_word_count (kept : list string) :
  Forall is_word kept ->
  List.length (Py.split_ws (Py.join " " kept ++ "..."))
  = Nat.max 1 (List.length kept).
Proof.
  intro Hw. destruct kept as [|w ws] eqn:E; [reflexivity|]. rewrite <- E in *.
  assert (Hne : kept <> []) by (rewrite E; discriminate).
  rewrite split_cut by assumption.
  rewrite (app_removelast_last "" Hne) at 3.
  rewrite !length_app. cbn [List.length]. lia.
Qed.

(** C3, as stated, fails: sixty words cut at fifty give a text that splits
    into fifty items, the last one being ["w50..."], and not into fifty-one. *)
Lemma truncate_sixty_words_counterexample :
  List.length (Py.split_ws sixty_words) = 60%nat
  /\ truncate_summary (JStr sixty_words) 50 = Return fifty_words_cut
  /\ List.length (Py.split_ws fifty_words_cut) = 50%nat
  /\ last (Py.split_ws fifty_words_cut) "" = "w50..."
  /\ List.length (Py.split_ws fifty_words_cut) <> 51%nat.
Proof. repeat split; try reflexivity. vm_compute. discriminate. Qed.

(** C3, amended: a text of more than [max_words] words (with
    [0 <= max_words]) comes back as its first [max_words] words joined by
    single spaces, followed by ["..."].  The marker is glued to the last kept
    word: when at least one word is kept the result splits into exactly
    [max_words] items, the kept words with ["..."] appended to the last; when
    none is kept the result is the marker alone, one item. *)
Theorem truncate_long_glues_marker (text : string) (max_words : Z) :
  0 <= max_words < Z.of_nat (List.length (Py.split_ws text)) ->
  let words := Py.split_ws text in
  let kept := firstn (Z.to_nat max_words) words in
  truncate_summary (JStr text) max_words = Return (Py.join " " kept ++ "...")
  /\ (1 <= max_words ->
      Py.split_ws (Py.join " " kept ++ "...")
      = (removelast kept ++ [(last kept "" ++ "...")%string])%list)
  /\ List.length (Py.split_ws (Py.join " " kept ++ "..."))
     = Z.to_nat (Z.max 1 max_words).
Proof.
  intros Hm words kept.
  assert (Hkept : Forall is_word kept) by (apply firstn_words, split_ws_words).
  assert (Hlen : List.length kept = Z.to_nat max_words).
  { unfold kept, words. rewrite length_firstn. lia. }
  split; [|split].
  - now apply truncate_long_value.
  - intro H1. apply split_cut; [|assumption].
    intro E. rewrite E in Hlen. simpl in Hlen. lia.
  - rewrite cut_word_count by assumption. lia.
Qed.

Lemma truncate_long_glues_marker_witness :
  truncate_summary (JStr "a b  c d") 2 = Return "a b..."
  /\ Py.split_ws "a b..." = ["a"; "b..."].
Proof.
  destruct (truncate_long_glues_marker "a b  c d" 2) as [H1 [H2 _]].
  - vm_compute. split; [discriminate | reflexivity].
  - split; [exact H1 | apply H2; lia].
Defined.

(** C8: a text of at most [max_words] words comes back unchanged, spacing
    included, and [truncate_summary] returns on every string, the empty one
    included. *)
Theorem truncate_short_unchanged (text : string) (max_words : Z) :
  Z.of_nat (List.length (Py.split_ws text)) <= max_words ->
  truncate_summary (JStr text) max_words = Return text
  /\ (forall (s : string) (m : Z), exists r, truncate_summary (JStr s) m = Return r)
  /\ truncate_summary (JStr "") default_max_words = Return "".
Proof.
  intro H. split; [|split].
  - unfold truncate_summary.
    destruct (Z.leb_spec (Z.of_nat (List.length (Py.split_ws text))) max_words);
      [reflexivity | lia].
  - intros s m. unfold truncate_summary.
    destruct (Z.of_nat (List.length (Py.split_ws s)) <=? m); eauto.
  - reflexivity.
Qed.

Lemma truncate_short_unchanged_witness :
  truncate_summary (JStr "a b c") 5 = Return "a b c"
  /\ truncate_summary (JStr "  a   b ") 2 = Return "  a   b ".
Proof.
  split.
  - apply (truncate_short_unchanged "a b c" 5). vm_compute. discriminate.
  - apply (truncate_short_unchanged "  a   b " 2). vm_compute. discriminate.
Defined.

End TruncateFacts.

(** ** [build_search_query] *)

Module QueryFacts.

Import StrFacts.

Lemma join_nonempty_head (sep p : string) (ps : list string) :
  p <> "" -> Py.join sep (p :: ps) <> "".
Proof.
  intros Hp H. unfold Py.join in H. simpl in H.
  destruct ps; [tauto|]. apply append_eq_nil in H. tauto.
Qed.

Lemma join_snoc (sep : string) (ps : list string) (t : string) :
  ps <> [] -> Py.join sep (ps ++ [t]) = Py.join sep ps ++ sep ++ t.
Proof.
  unfold Py.join. induction ps as [|p ps IH]; intro H; [contradiction|].
  destruct ps as [|p2 ps]; [reflexivity|].
  change (String.concat sep ((p :: p2 :: ps) ++ [t]))
    with (p ++ sep ++ String.concat sep ((p2 :: ps) ++ [t])).
  rewrite IH by discriminate.
  change (String.concat sep (p :: p2 :: ps))
    with (p ++ sep ++ String.concat sep (p2 :: ps)).
  now rewrite !append_assoc.
Qed.

(** Every phrase of the topic catalog is non-empty. *)
Lemma target_phrase_nonempty (target phrase : string) :
  dict_item target TARGETS = Return phrase -> phrase <> "".
Proof.
  unfold dict_item, TARGETS, dict_lookup.
  repeat match goal with
         | |- context [(?k =? target)%string] => destruct (k =? target)%string
         end; intro H; inversion H; discriminate.
Qed.

Lemma target_parts_nonempty (targets parts : list string) :
  for_each (fun target => dict_item target TARGETS) targets = Return parts ->
  Forall (fun p => p <> "") parts.
Proof.
  revert parts. induction targets as [|t ts IH]; intros parts H; simpl in H.
  - inversion H. constructor.
  - destruct (dict_item t TARGETS) as [phrase|] eqn:Ht; [|discriminate].
    simpl in H.
    destruct (for_each (fun target => dict_item target TARGETS) ts) as [rest|];
      [|discriminate].
    simpl in H. inversion H; subst. constructor.
    + eapply target_phrase_nonempty; eassumption.
    + now apply IH.
Qed.

(** The region clause, when there is one, is a non-empty part. *)
Lemma region_clause_nonempty (regions : list string) :
  Forall (fun p => p <> "")
    (if nonempty (map region_term regions)
     then [Py.join " OR " (map region_term regions)] else []).
Proof.
  destruct regions as [|r rs]; cbn [map nonempty]; constructor; [|constructor].
  apply join_nonempty_head. discriminate.
Qed.

(** With no topic and no free text the query is the region clause, in the
    order the regions were supplied. *)
Lemma build_regions_only (supplied : list string) :
  build_search_query supplied [] ""
  = Return (Py.join " OR " (map region_term supplied)).
Proof.
  unfold build_search_query. simpl.
  destruct supplied as [|r rs]; reflexivity.
Qed.

(** The checked names depend on which names were ticked, not on the order. *)
Lemma ticked_ext (ticks ticks' : list string) (name : string) :
  (forall r, In r ticks <-> In r ticks') -> ticked ticks name = ticked ticks' name.
Proof.
  intro H. unfold ticked.
  destruct (existsb (String.eqb name) ticks) eqn:E;
    destruct (existsb (String.eqb name) ticks') eqn:E'; try reflexivity.
  - apply existsb_exists in E as [x [Hin Hx]].
    apply String.eqb_eq in Hx; subst x.
    assert (F : existsb (String.eqb name) ticks' = true).
    { apply existsb_exists. exists name. split; [now apply H | apply String.eqb_refl]. }
    congruence.
  - apply existsb_exists in E' as [x [Hin Hx]].
    apply String.eqb_eq in Hx; subst x.
    assert (F : existsb (String.eqb name) ticks = true).
    { apply existsb_exists. exists name. split; [now apply H | apply String.eqb_refl]. }
    congruence.
Qed.

(** C1, as stated, fails: the builder keeps the order it is given. *)
Lemma build_regions_order_counterexample :
  build_search_query ["France"; "Poland"] [] "" = Return "in France OR in Poland"
  /\ build_search_query ["Poland"; "France"] [] "" = Return "in Poland OR in France"
  /\ "in France OR in Poland" <> "in Poland OR in France".
Proof. repeat split. discriminate. Qed.

(** C1, amended: [build_search_query] writes the ["in {region}"] phrases in
    the order of the sequence it receives.  The catalog order comes from
    [main], which collects the checked regions by walking the catalog: two
    rounds of ticking that tick the same regions, in whatever order, give the
    same selection, a sub-sequence of the catalog's names, and so the same
    query. *)
Theorem region_clause_order (ticks ticks' targets : list string) (terms : string) :
  (forall r, In r ticks <-> In r ticks') ->
  let regions := checked_keys REGIONS (ticked ticks) in
  let regions' := checked_keys REGIONS (ticked ticks') in
  regions = regions'
  /\ regions = filter (ticked ticks)
                 ["Poland"; "Czech Republic"; "Romania"; "France"; "Saudi Arabia"]
  /\ build_search_query regions targets terms
     = build_search_query regions' targets terms
  /\ (forall supplied : list string,
        build_search_query supplied [] ""
        = Return (Py.join " OR " (map region_term supplied))).
Proof.
  intros H regions regions'.
  assert (E : regions = regions').
  { unfold regions, regions', checked_keys. apply filter_ext.
    intro name. now apply ticked_ext. }
  split; [exact E|]. split; [reflexivity|]. split; [now rewrite E|].
  exact build_regions_only.
Qed.

Lemma region_clause_order_witness :
  build_search_query (checked_keys REGIONS (ticked ["France"; "Poland"])) [] ""
  = Return "in Poland OR in France"
  /\ build_search_query (checked_keys REGIONS (ticked ["Poland"; "France"])) [] ""
     = Return "in Poland OR in France".
Proof.
  destruct (region_clause_order ["France"; "Poland"] ["Poland"; "France"] [] "")
    as [_ [_ [E _]]].
  - intro r. simpl. tauto.
  - split; [reflexivity | rewrite <- E; reflexivity].
Defined.

(** C6, as stated, fails: a blank free text is appended like any other. *)
Lemma blank_terms_counterexample :
  build_search_query ["France"] [] " " = Return "in France  "
  /\ build_search_query ["France"] [] "" = Return "in France"
  /\ "in France  " <> "in France".
Proof. repeat split. discriminate. Qed.

(** C6, amended: the free text is appended verbatim, after one joining space
    when other parts precede it, whenever it is a non-empty string; nothing is
    trimmed, so a text of blanks is appended too.  Only the empty text leaves
    the query as built without it. *)
Theorem additional_terms_verbatim (regions targets : list string)
    (terms base : string) :
  build_search_query regions targets "" = Return base ->
  terms <> "" ->
  build_search_query regions targets terms
  = Return (if (base =? "")%string then terms else base ++ " " ++ terms).
Proof.
  unfold build_search_query. intros Hbase Hterms.
  destruct (for_each (fun target => dict_item target TARGETS) targets)
    as [target_parts|] eqn:Ht; [|discriminate].
  simpl in *. unfold Py.truthy. rewrite (eqb_nil_false terms Hterms). simpl.
  rewrite app_nil_r in Hbase. rewrite app_assoc.
  set (parts := (target_parts
                 ++ (if nonempty (map region_term regions)
                     then [Py.join " OR " (map region_term regions)] else []))%list)
    in *.
  assert (Hparts : Forall (fun p => p <> "") parts).
  { apply Forall_app. split;
      [eapply target_parts_nonempty; eassumption | apply region_clause_nonempty]. }
  inversion Hbase as [Hb]. clear Hbase.
  destruct parts as [|p ps].
  - reflexivity.
  - inversion Hparts; subst.
    rewrite (eqb_nil_false (Py.join " " (p :: ps)))
      by now apply join_nonempty_head.
    now rewrite join_snoc by discriminate.
Qed.

Lemma additional_terms_verbatim_witness :
  build_search_query ["France"] ["airline news"] "  "
  = Return "airline industry news updates in France   ".
Proof.
  apply (additional_terms_verbatim ["France"] ["airline news"] "  "
           "airline industry news updates in France").
  - reflexivity.
  - discriminate.
Defined.

End QueryFacts.

(** ** [search_serpapi] *)

Module SearchFacts.

Import StrFacts.

(** The loop returns the records of its items, one for one. *)
Lemma for_each_return {A B : Type} (f : A -> result B) (l : list A) (ys : list B) :
  for_each f l = Return ys -> Forall2 (fun x y => f x = Return y) l ys.
Proof.
  revert ys. induction l as [|x l IH]; intros ys H; simpl in H.
  - inversion H. constructor.
  - destruct (f x) as [y|] eqn:Hx; [|discriminate]. simpl in H.
    destruct (for_each f l) as [ys'|]; [|discriminate]. simpl in H.
    inversion H; subst. constructor; auto.
Qed.

(** What the loop raises, one of its items raised. *)
Lemma for_each_raise {A B : Type} (f : A -> result B) (l : list A) (e : exn) :
  for_each f l = Raise e -> exists x, In x l /\ f x = Raise e.
Proof.
  induction l as [|x l IH]; intro H; simpl in H; [discriminate|].
  destruct (f x) as [y|e'] eqn:Hx; simpl in H.
  - destruct (for_each f l) as [ys'|e'']; simpl in H; [discriminate|].
    inversion H; subst. destruct IH as [x' [Hin Hx']]; [reflexivity|].
    exists x'. split; [now right | assumption].
  - inversion H; subst. exists x. split; [now left | assumption].
Qed.

(** A hit that cannot be processed raises [AttributeError], which no
    [except] clause of [search_serpapi] names. *)
Lemma process_result_raise (hit : json) (e : exn) :
  process_result hit = Raise e -> search_handler e = None.
Proof.
  unfold process_result, truncate_summary. intro H.
  destruct hit as [| | | | |fields]; try (inversion H; reflexivity).
  destruct (dict_get "snippet" fields (JStr "No summary available"));
    simpl in H; try (inversion H; reflexivity).
  destruct (Z.of_nat (List.length (Py.split_ws s)) <=? default_max_words);
    discriminate.
Qed.

Lemma process_result_return (hit : json) (r : ResultRecord) :
  process_result hit = Return r -> record_of_hit hit r.
Proof.
  unfold process_result. intro H.
  destruct hit as [| | | | |fields]; try discriminate.
  destruct (truncate_summary (dict_get "snippet" fields (JStr "No summary available"))
                             default_max_words) as [s|] eqn:Hs; [|discriminate].
  simpl in H. inversion H; subst; clear H. exists fields. simpl.
  repeat split; try assumption.
  - unfold dict_get. now intros ->.
  - unfold dict_get in Hs. intro Hnone. rewrite Hnone in Hs.
    vm_compute in Hs. now inversion Hs.
  - unfold dict_get. now intros ->.
Qed.

(** A hit list taken from a response that was accepted gives one record per
    hit, or the search raises. *)
Lemma search_records (hashable_slices : bool) (query key : string) (n : Z)
    (region : option string) (status : Z) (fields : list (string * json))
    (hits : list json) (evs : list event) (rs : list ResultRecord) :
  raise_for_status status = Return tt ->
  dict_get "organic_results" fields (JArr []) = JArr hits ->
  search_serpapi hashable_slices query key n region
    (Responded status (Some (JObj fields))) = (evs, Return rs) ->
  Forall2 record_of_hit (Py.slice_to hits n) rs.
Proof.
  intros Hok Hhits H.
  unfold search_serpapi, search_attempt, requests_get in H.
  cbn [bind emit ret lift fst snd app] in H. rewrite Hok in H.
  cbn [bind emit ret lift fst snd app response_json organic_results] in H.
  rewrite Hhits in H. cbn [take_results bind lift app] in H.
  destruct (for_each process_result (Py.slice_to hits n)) as [records|e] eqn:E.
  - cbn in H. inversion H; subst.
    apply for_each_return in E.
    eapply Forall2_impl; [|exact E]. exact process_result_return.
  - apply for_each_raise in E as [hit [_ Hhit]].
    apply process_result_raise in Hhit.
    cbn in H. rewrite Hhit in H. discriminate.
Qed.

Lemma accepted_status (status : Z) :
  200 <= status < 300 -> raise_for_status status = Return tt.
Proof.
  intro H. unfold raise_for_status.
  destruct (Z.leb_spec 400 status); [lia | reflexivity].
Qed.

(** C7: on a response with a 2xx status whose [organic_results] is a list,
    every record [search_serpapi] returns comes from the hit at its place:
    [selected] is [false], and a hit without [title], [snippet] or [link]
    gives the title ["No title"], the summary ["No summary available"], the
    URL ["No URL available"]. *)
Theorem missing_fields_placeholders (hashable_slices : bool) (query key : string)
    (n : Z) (region : option string) (status : Z) (fields : list (string * json))
    (hits : list json) (evs : list event) (rs : list ResultRecord) :
  200 <= status < 300 ->
  dict_get "organic_results" fields (JArr []) = JArr hits ->
  search_serpapi hashable_slices query key n region
    (Responded status (Some (JObj fields))) = (evs, Return rs) ->
  Forall2 record_of_hit (Py.slice_to hits n) rs
  /\ Forall (fun r => selected r = false) rs.
Proof.
  intros Hst Hhits H.
  assert (F : Forall2 record_of_hit (Py.slice_to hits n) rs).
  { eapply search_records; eauto using accepted_status. }
  split; [exact F|].
  clear H. induction F as [|hit r ? ? Hr _ IH]; constructor; [|exact IH].
  destruct Hr as [? [_ [Hsel _]]]. exact Hsel.
Qed.

Lemma missing_fields_placeholders_witness :
  search_serpapi true "q" "k" 10 None (Responded 200 (Some bare_hit_response))
  = ([HttpGet base_url (request_params "q" "k" 10 None)],
     Return [ {| selected := false; title := JStr "No title";
                 summary := "No summary available";
                 url := JStr "No URL available" |} ])
  /\ Forall (fun r => selected r = false)
       [ {| selected := false; title := JStr "No title";
            summary := "No summary available";
            url := JStr "No URL available" |} ].
Proof.
  split; [reflexivity|].
  eapply (missing_fields_placeholders true "q" "k" 10 None 200
            [("organic_results", JArr [JObj [("position", JNum "1")]])]).
  - lia.
  - reflexivity.
  - reflexivity.
Defined.

(** C4: a transport failure, a 4xx or 5xx status and a body that is no JSON
    are reported and give the empty list.  A response of the wrong shape is
    not: on a hit whose [snippet] is [null], and on a body that is a JSON
    list, the search raises [AttributeError] to its caller and reports
    nothing. *)
Theorem search_malformed_response_raises (hashable_slices : bool)
    (query key : string) (n : Z) (region : option string) :
  let request := HttpGet base_url (request_params query key n region) in
  let search := search_serpapi hashable_slices query key n region in
  (forall text,
      search (NetworkError text)
      = ([request; StErrorExn "Error making API request: "
                     (RequestException (ConnectionFailure text))], Return []))
  /\ (forall status body, 400 <= status < 600 ->
      search (Responded status body)
      = ([request; StErrorExn "Error making API request: "
                     (RequestException (HTTPError status))], Return []))
  /\ (forall status, raise_for_status status = Return tt ->
      search (Responded status None)
      = ([request; StErrorExn "Error making API request: "
                     (RequestException JSONDecodeError)], Return []))
  /\ (0 < n ->
      search (Responded 200 (Some null_snippet_response))
      = ([request], Raise (AttributeError "split")))
  /\ search (Responded 200 (Some (JArr []))) = ([request], Raise (AttributeError "get")).
Proof.
  intros request search. unfold search, search_serpapi, search_attempt, requests_get.
  repeat split.
  - intros status body Hst.
    cbn [bind emit ret lift fst snd app]. unfold raise_for_status.
    destruct (Z.leb_spec 400 status); [|lia].
    destruct (Z.ltb_spec status 600); [|lia]. reflexivity.
  - intros status Hok. cbn [bind emit ret lift fst snd app]. rewrite Hok. reflexivity.
  - intro Hn. cbn [bind emit ret lift fst snd app raise_for_status].
    change (raise_for_status 200) with (Return tt).
    cbn [bind lift app response_json organic_results null_snippet_response].
    change (dict_get "organic_results" _ (JArr []))
      with (JArr [JObj [("title", JStr "t"); ("snippet", JNull)]]).
    cbn [take_results bind lift app]. unfold Py.slice_to.
    destruct (Z.ltb_spec n 0); [lia|].
    destruct (Z.to_nat n) as [|m] eqn:Hm; [lia|]. reflexivity.
Qed.

End SearchFacts.

(** ** [save_selected_results] *)

Module ExportFacts.

(** The stages of [clean_query] on the example. *)
Lemma poland_query_stages :
  Py.str_slice_to poland_query 30 = "luxury travel market trends an"
  /\ Py.replace " " "_" "luxury travel market trends an"
     = "luxury_travel_market_trends_an"
  /\ fold_left (fun acc word => Py.replace word "" acc) words_to_remove
       "luxury_travel_market_trends_an" = "luxury_travel___an"
  /\ Py.split_on "_" "luxury_travel___an" = ["luxury"; "travel"; ""; ""; "an"].
Proof. repeat split. Qed.

(** C2, as stated, fails: the thirty-character prefix of the query ends in
    ["an"], which stays in the file name, so the name is not of the claimed
    pattern and the clean query is not ["luxury_travel"]. *)
Lemma export_filename_counterexample :
  clean_query poland_query = "luxury_travel_an"
  /\ snd (save_selected_results files_ok
            [ {| selected := true; title := JStr "t"; summary := "s"; url := JStr "u" |} ]
            poland_query ["Poland"] "20240315_101530")
     = Return "poland_luxury_travel_an_20240315_101530.csv"
  /\ matches_stamped "poland_luxury_travel__"
       "poland_luxury_travel_an_20240315_101530.csv" = false
  /\ clean_query poland_query <> "luxury_travel".
Proof. repeat split. vm_compute. discriminate. Qed.

(** The exporter returns the name it derived, or a file operation failed. *)
Lemma save_outcome (fs : event -> bool) (df : DataFrame) (search_query : string)
    (selected_regions : list string) (timestamp : string) :
  let name := export_filename search_query selected_regions timestamp in
  snd (save_selected_results fs df search_query selected_regions timestamp)
  = Return name
  \/ snd (save_selected_results fs df search_query selected_regions timestamp)
     = Raise (OSError name).
Proof.
  unfold save_selected_results, file_op.
  repeat match goal with
         | |- context [if fs ?ev then _ else _] => destruct (fs ev)
         end; cbn; auto.
Qed.

(** C2, amended: with the region Poland and the query ["luxury travel market
    trends analysis in Poland"] the export returns the file name
    [poland_luxury_travel_an_{timestamp}.csv]: the clean query, from the first
    thirty characters ["luxury travel market trends an"], is
    ["luxury_travel_an"].  That name is returned when the file operations
    succeed, and no other name can be returned. *)
Theorem export_filename_poland (fs : event -> bool) (df : DataFrame)
    (timestamp : string) :
  clean_query poland_query = "luxury_travel_an"
  /\ snd (save_selected_results files_ok df poland_query ["Poland"] timestamp)
     = Return ("poland_luxury_travel_an_" ++ timestamp ++ ".csv")
  /\ (forall name,
        snd (save_selected_results fs df poland_query ["Poland"] timestamp)
        = Return name ->
        name = "poland_luxury_travel_an_" ++ timestamp ++ ".csv")
  /\ matches_stamped "poland_luxury_travel_an_"
       (export_filename poland_query ["Poland"] "20240315_101530") = true.
Proof.
  repeat split.
  intros name H.
  destruct (save_outcome fs df poland_query ["Poland"] timestamp) as [E|E];
    rewrite E in H; [|discriminate].
  inversion H. reflexivity.
Qed.

(** C5, as stated, fails: called on a table with no selected row, the
    exporter writes the file, header and empty table, and returns its name. *)
Lemma export_without_selection_counterexample :
  any_selected unselected_table = false
  /\ save_selected_results files_ok unselected_table "q" ["Poland"]
       "20240315_101530"
     = ([ FileOpen "poland_q_20240315_101530.csv" "w";
          FileWrite "poland_q_20240315_101530.csv" ("# Search Query: q" ++ nl);
          FileWrite "poland_q_20240315_101530.csv" ("# Regions: Poland" ++ nl);
          FileWrite "poland_q_20240315_101530.csv"
            ("# Timestamp: 20240315_101530" ++ nl);
          FileWrite "poland_q_20240315_101530.csv"
            ("#==================================================" ++ nl);
          ToCsv "poland_q_20240315_101530.csv" "a" [] ],
        Return "poland_q_20240315_101530.csv").
Proof. split; reflexivity. Qed.

End ExportFacts.

(** ** Effects *)

Module IoFacts.

Lemma fst_bind {A B : Type} (m : io A) (k : A -> io B) :
  fst (bind m k)
  = (fst m ++ match snd m with Return a => fst (k a) | Raise _ => [] end)%list.
Proof.
  destruct m as [evs [a|e]]; simpl.
  - now destruct (k a).
  - now rewrite app_nil_r.
Qed.

Lemma snd_bind {A B : Type} (m : io A) (k : A -> io B) :
  snd (bind m k) = match snd m with Return a => snd (k a) | Raise e => Raise e end.
Proof.
  destruct m as [evs [a|e]]; simpl; [now destruct (k a) | reflexivity].
Qed.

Lemma quiet_bind {A B : Type} (p : event -> bool) (m : io A) (k : A -> io B) :
  quiet p m -> (forall a, snd m = Return a -> quiet p (k a)) -> quiet p (bind m k).
Proof.
  unfold quiet. intros Hm Hk. rewrite fst_bind, forallb_app, Hm. simpl.
  destruct (snd m) as [a|e]; [now apply Hk | reflexivity].
Qed.

Lemma quiet_ret {A : Type} (p : event -> bool) (a : A) : quiet p (ret a).
Proof. reflexivity. Qed.

Lemma quiet_lift {A : Type} (p : event -> bool) (r : result A) : quiet p (lift r).
Proof. reflexivity. Qed.

Lemma quiet_emit (p : event -> bool) (ev : event) : p ev = true -> quiet p (emit ev).
Proof. unfold quiet. simpl. now intros ->. Qed.

Lemma quiet_raise {A : Type} (p : event -> bool) (e : exn) :
  quiet p (raise e : io A).
Proof. reflexivity. Qed.

Lemma quiet_try {A : Type} (p : event -> bool) (m : io A) (h : exn -> option (io A)) :
  quiet p m -> (forall e c, h e = Some c -> quiet p c) -> quiet p (try_except m h).
Proof.
  unfold quiet. destruct m as [evs [a|e]]; simpl; intros Hm Hh; [assumption|].
  destruct (h e) as [c|] eqn:Hc; [|assumption].
  specialize (Hh e c Hc). destruct c as [evs' r]. simpl in *.
  now rewrite forallb_app, Hm, Hh.
Qed.



Lemma requests_of_app (a b : list event) :
  requests_of (a ++ b) = (requests_of a ++ requests_of b)%list.
Proof.
  induction a as [|ev a IH]; [reflexivity|].
  destruct ev; simpl; now rewrite IH.
Qed.

Lemma requests_quiet {A : Type} (m : io A) :
  quiet not_request m -> requests_of (fst m) = [].
Proof.
  unfold quiet. induction (fst m) as [|ev evs IH]; [reflexivity|].
  destruct ev; simpl; auto; discriminate.
Qed.

Lemma requests_bind {A B : Type} (m : io A) (k : A -> io B) :
  requests_of (fst (bind m k))
  = (requests_of (fst m)
     ++ match snd m with Return a => requests_of (fst (k a)) | Raise _ => [] end)%list.
Proof.
  rewrite fst_bind, requests_of_app. now destruct (snd m).
Qed.





End IoFacts.

(** One step of a walk through a computation, showing it quiet. *)
Ltac quiet_step :=
  first
    [ apply IoFacts.quiet_ret
    | apply IoFacts.quiet_lift
    | apply IoFacts.quiet_emit; reflexivity
    | apply IoFacts.quiet_raise
    | apply IoFacts.quiet_bind; [|intros ? ?]
    | match goal with
      | |- quiet _ (if ?c then _ else _) => destruct c eqn:?
      | |- quiet _ (match ?x with _ => _ end) => destruct x eqn:?
      end ].

(** ** [main] *)

Module MainFacts.

Import StrFacts IoFacts.

(** A search writes no file. *)
Lemma search_no_file_write hs query key n region o :
  quiet not_file_write (search_serpapi hs query key n region o).
Proof.
  unfold search_serpapi, search_attempt, requests_get.
  apply quiet_try.
  - repeat quiet_step.
  - intros e c H. destruct e; simpl in H; inversion H; subst; repeat quiet_step.
Qed.

(** A search sends one request. *)
Lemma search_requests hs query key n region o :
  requests_of (fst (search_serpapi hs query key n region o))
  = [request_params query key n region].
Proof.
  unfold search_serpapi.
  assert (E : exists r, search_attempt hs query key n region o
                        = ([HttpGet base_url (request_params query key n region)], r)).
  { unfold search_attempt, requests_get. destruct o as [text|status body]; cbn.
    - eauto.
    - destruct (raise_for_status status); [|eauto].
      destruct (response_json body) as [data|]; [|eauto].
      destruct (organic_results data) as [results|]; [|eauto].
      destruct (take_results hs results n); eauto. }
  destruct E as [r ->]. destruct r as [rs|e]; [reflexivity|].
  destruct e; reflexivity.
Qed.


(** A cut or uncut text has at most [max_words] words. *)
Lemma truncate_bound (text stored : string) (max_words : Z) :
  1 <= max_words ->
  truncate_summary (JStr text) max_words = Return stored ->
  (List.length (Py.split_ws stored) <= Z.to_nat max_words)%nat.
Proof.
  intros Hm H.
  destruct (Z.le_gt_cases (Z.of_nat (List.length (Py.split_ws text))) max_words)
    as [Hshort|Hlong].
  - unfold truncate_summary in H.
    destruct (Z.leb_spec (Z.of_nat (List.length (Py.split_ws text))) max_words);
      [|lia].
    assert (E : text = stored) by congruence. subst stored. lia.
  - rewrite TruncateFacts.truncate_long_value in H by lia.
    assert (E : Py.join " " (firstn (Z.to_nat max_words) (Py.split_ws text)) ++ "..."
                = stored) by congruence.
    rewrite <- E.
    rewrite TruncateFacts.cut_word_count
      by apply TruncateFacts.firstn_words, split_ws_words.
    rewrite length_firstn. lia.
Qed.


(** The view of the results sends no request. *)
Lemma view_no_request u regions search_query session :
  quiet not_request (results_view u regions search_query session).
Proof.
  unfold results_view, save_action, save_selected_results, file_op. repeat quiet_step.
Qed.

(** Every catalog region has a non-empty code. *)
Lemma region_code_known (first : string) :
  In first (map fst REGIONS) ->
  exists code, dict_item first REGIONS = Return code /\ Py.truthy code = true.
Proof.
  simpl. intros [<-|[<-|[<-|[<-|[<-|[]]]]]]; eexists; split; reflexivity.
Qed.

Lemma for_each_total {A B : Type} (f : A -> result B) (l : list A) :
  (forall x, In x l -> exists y, f x = Return y) -> exists ys, for_each f l = Return ys.
Proof.
  induction l as [|x l IH]; intro H; [now exists []|].
  destruct (H x (or_introl eq_refl)) as [y Hy].
  destruct IH as [ys Hys]; [intros; apply H; now right|].
  exists (y :: ys). simpl. now rewrite Hy, Hys.
Qed.

(** On checked topics the builder does not raise. *)
Lemma query_built (regions : list string) (checked : string -> bool) (terms : string) :
  exists query,
    build_search_query regions (checked_keys TARGETS checked) terms = Return query.
Proof.
  unfold build_search_query.
  destruct (for_each_total (fun target => dict_item target TARGETS)
              (checked_keys TARGETS checked)) as [parts ->].
  - intros x Hin. apply filter_In in Hin as [Hin _]. simpl in Hin.
    destruct Hin as [<-|[<-|[<-|[<-|[]]]]]; eexists; reflexivity.
  - eexists. reflexivity.
Qed.

(** The one request of a search started with a region checked. *)
Lemma search_action_requests hs u first rest targets query code session :
  api_key u <> "" ->
  dict_item first REGIONS = Return code ->
  Py.truthy code = true ->
  requests_of (fst (search_action hs u (first :: rest) targets (Some query) session))
  = [ [ ("q", PStr query); ("api_key", PStr (api_key u));
        ("engine", PStr "google"); ("num", PInt (num_results u));
        ("gl", PStr code); ("hl", PStr "en") ] ].
Proof.
  intros Hkey Hcode Htruthy. unfold search_action.
  assert (Hk : Py.truthy (api_key u) = true).
  { unfold Py.truthy. now rewrite eqb_nil_false. }
  rewrite Hk, Hcode. cbn [negb nonempty orb rbind read_local].
  do 2 (rewrite requests_bind; cbn [lift fst snd requests_of app]).
  rewrite requests_bind, search_requests.
  unfold request_params. rewrite Htruthy.
  destruct (snd (search_serpapi hs query (api_key u) (num_results u) (Some code)
                   (provider u))) as [results|e]; [|reflexivity].
  destruct (nonempty results); reflexivity.
Qed.

(** C5, amended: the guard sits in the caller.  When the table handed back
    by the data editor has no selected row, the save handler of [main] shows
    a warning and does not call the exporter, so a run in which no table can
    come back with a selected row writes no file. *)
Theorem save_without_selection_writes_nothing (hs : bool) (u : inputs)
    (session : option DataFrame) (edited_df : DataFrame) (regions : list string)
    (search_query : option string) :
  any_selected edited_df = false ->
  save_action u edited_df regions search_query
  = ([StWarning "Please select at least one result to save."], Return tt)
  /\ ((forall df, any_selected (data_editor u df (summary_length u)) = false) ->
      forallb not_file_write (fst (main hs u session)) = true).
Proof.
  intro Hnone. split.
  - unfold save_action. now rewrite Hnone.
  - intro H. change (quiet not_file_write (main hs u session)).
    unfold main, search_action, results_view, save_action.
    repeat first [apply search_no_file_write | rewrite H | quiet_step].
Qed.

Lemma save_without_selection_writes_nothing_witness :
  save_action save_run unselected_table ["Poland"] (Some "in Poland")
  = ([StWarning "Please select at least one result to save."], Return tt)
  /\ forallb not_file_write (fst (main true save_run (Some unselected_table))) = true.
Proof.
  destruct (save_without_selection_writes_nothing true save_run
              (Some unselected_table) unselected_table ["Poland"] (Some "in Poland"))
    as [Hsave Hmain].
  - reflexivity.
  - split; [exact Hsave | apply Hmain; intro df; reflexivity].
Defined.

(** C9: when a search is started with regions checked, the one request of the
    run carries as [gl] the catalog code of the first checked region, with
    [hl] set to ["en"]; the other checked regions appear in the query text
    only. *)
Theorem first_region_is_geo (hs : bool) (u : inputs) (session : option DataFrame)
    (first : string) (rest : list string) :
  search_clicked u = true ->
  api_key u <> "" ->
  checked_keys REGIONS (region_checked u) = first :: rest ->
  exists code query,
    dict_lookup first REGIONS = Some code
    /\ build_search_query (first :: rest) (checked_keys TARGETS (target_checked u))
         (additional_terms u) = Return query
    /\ requests_of (fst (main hs u session))
       = [ [ ("q", PStr query); ("api_key", PStr (api_key u));
             ("engine", PStr "google"); ("num", PInt (num_results u));
             ("gl", PStr code); ("hl", PStr "en") ] ].
Proof.
  intros Hclick Hkey Hregions.
  assert (Hin : In first (map fst REGIONS)).
  { assert (H : In first (checked_keys REGIONS (region_checked u)))
      by (rewrite Hregions; now left).
    now apply filter_In in H. }
  destruct (region_code_known first Hin) as [code [Hcode Htruthy]].
  destruct (query_built (first :: rest) (target_checked u) (additional_terms u))
    as [query Hquery].
  exists code, query. split; [|split; [exact Hquery|]].
  - unfold dict_item in Hcode.
    destruct (dict_lookup first REGIONS); now inversion Hcode.
  - unfold main. rewrite Hregions. cbn [nonempty orb]. rewrite Hquery.
    rewrite requests_bind. cbn [bind lift emit ret fst snd app requests_of].
    rewrite Hclick, requests_bind.
    rewrite (search_action_requests hs u first rest _ query code session)
      by assumption.
    destruct (snd (search_action hs u (first :: rest)
                     (checked_keys TARGETS (target_checked u)) (Some query) session))
      as [[session'|]|e]; [|reflexivity|reflexivity].
    rewrite requests_bind, (requests_quiet _ (view_no_request _ _ _ _)).
    now destruct (snd (results_view u (first :: rest) (Some query) session')).
Qed.

Lemma first_region_is_geo_witness :
  exists code query,
    dict_lookup "Poland" REGIONS = Some code
    /\ build_search_query ["Poland"; "France"]
         (checked_keys TARGETS (target_checked search_run))
         (additional_terms search_run) = Return query
    /\ requests_of (fst (main true search_run None))
       = [ [ ("q", PStr query); ("api_key", PStr (api_key search_run));
             ("engine", PStr "google"); ("num", PInt (num_results search_run));
             ("gl", PStr code); ("hl", PStr "en") ] ].
Proof.
  apply (first_region_is_geo true search_run None "Poland" ["France"]).
  - reflexivity.
  - discriminate.
  - reflexivity.
Defined.








End MainFacts.

(** * Further properties *)

(** ** [truncate_summary]: bounds and edge cases *)

Module TruncateEdge.

Import StrFacts.

(** X1: for [max_words >= 1] the text [truncate_summary] returns never has
    more than [max_words] words. *)
Theorem truncate_word_budget (text stored : string) (max_words : Z) :
  1 <= max_words ->
  truncate_summary (JStr text) max_words = Return stored ->
  (List.length (Py.split_ws stored) <= Z.to_nat max_words)%nat.
Proof. exact (MainFacts.truncate_bound text stored max_words). Qed.

Lemma truncate_word_budget_witness :
  (List.length (Py.split_ws "a b c...") <= Z.to_nat 3)%nat.
Proof.
  apply (truncate_word_budget "a b c d e" "a b c..." 3); [lia | reflexivity].
Defined.

(** X2: for [max_words >= 0] cutting is idempotent: a text that came out of
    [truncate_summary] goes through it again unchanged. *)
Theorem truncate_idempotent (text stored : string) (max_words : Z) :
  0 <= max_words ->
  truncate_summary (JStr text) max_words = Return stored ->
  truncate_summary (JStr stored) max_words = Return stored.
Proof.
  intros Hm H.
  destruct (Z.eq_dec max_words 0) as [->|Hpos].
  - unfold truncate_summary in H.
    destruct (Z.of_nat (List.length (Py.split_ws text)) <=? 0) eqn:E.
    + assert (T : text = stored) by congruence. subst stored.
      unfold truncate_summary. now rewrite E.
    + assert (T : stored = "...") by (cbn in H; congruence). subst stored.
      reflexivity.
  - assert (Hb : (List.length (Py.split_ws stored) <= Z.to_nat max_words)%nat)
      by (apply (MainFacts.truncate_bound text stored max_words); [lia | assumption]).
    unfold truncate_summary.
    destruct (Z.leb_spec (Z.of_nat (List.length (Py.split_ws stored))) max_words);
      [reflexivity | lia].
Qed.

Lemma truncate_idempotent_witness :
  truncate_summary (JStr "a b...") 2 = Return "a b...".
Proof.
  apply (truncate_idempotent "a b  c d" "a b..." 2); [lia | reflexivity].
Defined.

(** X3: with a negative [max_words] the text is always rebuilt: the last
    [- max_words] words are dropped, the rest joined by single spaces, and
    the marker appended; a text with too few words, the empty one included,
    becomes the marker alone. *)
Theorem truncate_negative_limit (text : string) (max_words : Z) :
  max_words < 0 ->
  let words := Py.split_ws text in
  truncate_summary (JStr text) max_words
  = Return (Py.join " " (firstn (List.length words - Z.to_nat (- max_words)) words)
            ++ "...")
  /\ (Z.of_nat (List.length words) <= - max_words ->
      truncate_summary (JStr text) max_words = Return "...").
Proof.
  intros Hm words.
  assert (E : truncate_summary (JStr text) max_words
              = Return (Py.join " "
                          (firstn (List.length words - Z.to_nat (- max_words)) words)
                        ++ "...")).
  { unfold truncate_summary. fold words.
    destruct (Z.leb_spec (Z.of_nat (List.length words)) max_words); [lia|].
    unfold Py.slice_to. destruct (Z.ltb_spec max_words 0); [|lia].
    replace (Z.to_nat (Z.of_nat (List.length words) + max_words))
      with (List.length words - Z.to_nat (- max_words))%nat by lia.
    reflexivity. }
  split; [exact E|].
  intro Hfew. rewrite E.
  replace (List.length words - Z.to_nat (- max_words))%nat with 0%nat by lia.
  reflexivity.
Qed.

Lemma truncate_negative_limit_witness :
  truncate_summary (JStr "a b c") (-1) = Return "a b..."
  /\ truncate_summary (JStr "") (-1) = Return "...".
Proof.
  split.
  - apply (truncate_negative_limit "a b c" (-1)). lia.
  - apply (truncate_negative_limit "" (-1)); [lia | vm_compute; discriminate].
Defined.

End TruncateEdge.

(** ** [build_search_query]: unknown topics and the empty query *)

Module QueryEdge.

Import StrFacts.

Lemma dict_lookup_known {V : Type} (key : string) (d : list (string * V)) :
  In key (map fst d) -> exists v, dict_lookup key d = Some v.
Proof.
  induction d as [|[k v] d IH]; simpl; [tauto|].
  intros [E|Hin].
  - subst k. rewrite String.eqb_refl. eauto.
  - destruct (k =? key)%string; eauto.
Qed.

Lemma dict_lookup_unknown {V : Type} (key : string) (d : list (string * V)) :
  ~ In key (map fst d) -> dict_lookup key d = None.
Proof.
  induction d as [|[k v] d IH]; simpl; [reflexivity|].
  intro H. destruct (String.eqb_spec k key); [tauto|]. apply IH. tauto.
Qed.

Lemma for_each_length {A B : Type} (f : A -> result B) (l : list A) (ys : list B) :
  for_each f l = Return ys -> List.length ys = List.length l.
Proof.
  intro H. apply SearchFacts.for_each_return in H.
  induction H; simpl; congruence.
Qed.

(** The loop stops at the first item that raises. *)
Lemma for_each_first_raise {A B : Type} (f : A -> result B) (before : list A)
    (x : A) (after : list A) (e : exn) :
  (forall a, In a before -> exists b, f a = Return b) ->
  f x = Raise e ->
  for_each f (before ++ x :: after) = Raise e.
Proof.
  intros Hbefore Hx. induction before as [|a before IH]; simpl.
  - now rewrite Hx.
  - destruct (Hbefore a (or_introl eq_refl)) as [b ->]. simpl.
    rewrite IH; [reflexivity|]. intros a' Hin. apply Hbefore. now right.
Qed.

(** X4: a topic that is no key of the catalog makes the builder raise
    [KeyError] on it; the first such topic of the sequence is the one
    reported, whatever the regions and the free text. *)
Theorem build_unknown_target (regions known : list string) (target : string)
    (rest : list string) (terms : string) :
  Forall (fun t => In t (map fst TARGETS)) known ->
  ~ In target (map fst TARGETS) ->
  build_search_query regions (known ++ target :: rest) terms
  = Raise (KeyError (KStr target)).
Proof.
  intros Hknown Hunknown. unfold build_search_query.
  rewrite (for_each_first_raise _ known target rest (KeyError (KStr target))).
  - reflexivity.
  - intros t Hin. unfold dict_item.
    destruct (dict_lookup_known t TARGETS) as [v ->]; [|eauto].
    rewrite Forall_forall in Hknown. now apply Hknown.
  - unfold dict_item. now rewrite dict_lookup_unknown.
Qed.

Lemma build_unknown_target_witness :
  build_search_query ["Poland"] ["airline news"; "cruises"; "spas"] "x"
  = Raise (KeyError (KStr "cruises")).
Proof.
  apply (build_unknown_target ["Poland"] ["airline news"] "cruises" ["spas"] "x").
  - constructor; [simpl; auto 10 | constructor].
  - simpl. intros [H|[H|[H|[H|[]]]]]; discriminate.
Defined.

(** X5: the built query is the empty string exactly when no region and no
    topic is given and the free text is empty. *)
Theorem build_empty_iff (regions targets : list string) (terms : string) :
  build_search_query regions targets terms = Return ""
  <-> regions = [] /\ targets = [] /\ terms = "".
Proof.
  split.
  - unfold build_search_query. intro H.
    destruct (for_each (fun target => dict_item target TARGETS) targets)
      as [target_parts|] eqn:Ht; [|discriminate].
    simpl in H.
    assert (Hparts : Forall (fun p => p <> "")
                       (target_parts
                        ++ (if nonempty (map region_term regions)
                            then [Py.join " OR " (map region_term regions)] else [])
                        ++ (if Py.truthy terms then [terms] else []))%list).
    { apply Forall_app. split;
        [eapply QueryFacts.target_parts_nonempty; eassumption|].
      apply Forall_app. split; [apply QueryFacts.region_clause_nonempty|].
      unfold Py.truthy. destruct (String.eqb_spec terms ""); simpl;
        constructor; [assumption | constructor]. }
    destruct (target_parts
              ++ (if nonempty (map region_term regions)
                  then [Py.join " OR " (map region_term regions)] else [])
              ++ (if Py.truthy terms then [terms] else []))%list
      as [|p ps] eqn:E.
    + apply app_eq_nil in E as [E1 E2]. apply app_eq_nil in E2 as [E2 E3].
      repeat split.
      * destruct regions; [reflexivity | discriminate].
      * apply for_each_length in Ht. subst target_parts.
        destruct targets; [reflexivity | discriminate].
      * unfold Py.truthy in E3.
        destruct (String.eqb_spec terms ""); [assumption | discriminate].
    + exfalso. inversion Hparts; subst.
      apply (QueryFacts.join_nonempty_head " " p ps); [assumption | congruence].
  - intros [-> [-> ->]]. reflexivity.
Qed.

End QueryEdge.

(** ** [search_serpapi]: what comes out of a search *)

Module SearchEdge.

Import StrFacts.

(** The loop body raises [AttributeError] only. *)
Lemma process_result_escapes (hit : json) (e : exn) :
  process_result hit = Raise e -> exists attr, e = AttributeError attr.
Proof.
  unfold process_result, truncate_summary. intro H.
  destruct hit as [| | | | |fields]; try (inversion H; eauto).
  destruct (dict_get "snippet" fields (JStr "No summary available"));
    simpl in H; try (inversion H; eauto).
  destruct (Z.of_nat (List.length (Py.split_ws s)) <=? default_max_words);
    discriminate.
Qed.

Lemma process_well_formed (hit : json) :
  well_formed_hit hit -> exists r, process_result hit = Return r.
Proof.
  intros [fields [-> Hsnippet]]. unfold process_result, dict_get.
  destruct Hsnippet as [->|[s ->]]; unfold truncate_summary.
  - eexists. reflexivity.
  - destruct (Z.of_nat (List.length (Py.split_ws s)) <=? default_max_words);
      eexists; reflexivity.
Qed.

(** Whatever the provider does, a search ends in one of three ways. *)
Lemma search_cases hs query key n region o :
  let request := HttpGet base_url (request_params query key n region) in
  let s := search_serpapi hs query key n region o in
  (fst s = [request]
   /\ exists hits rs, snd s = Return rs /\ for_each process_result hits = Return rs
                      /\ (0 <= n -> (List.length hits <= Z.to_nat n)%nat))
  \/ (exists e, fst s = [request; StErrorExn "Error making API request: " e]
                /\ snd s = Return [])
  \/ (exists e, fst s = [request; StErrorExn "Error processing API response: " e]
                /\ snd s = Return [])
  \/ (fst s = [request] /\ exists e, snd s = Raise e /\ escapes_search e).
Proof.
  intros request s. unfold s, search_serpapi, search_attempt, requests_get.
  destruct o as [text|status body]; cbn.
  - right. left. eauto.
  - unfold raise_for_status.
    destruct ((400 <=? status) && (status <? 600)); cbn; [right; left; eauto|].
    destruct body as [data|]; cbn; [|right; left; eauto].
    destruct data as [| | | | |fields]; cbn;
      try (right; right; right; split; [reflexivity|];
           eexists; split; [reflexivity | left; eauto]).
    destruct (dict_get "organic_results" fields (JArr [])) as [| | |text|items|d]; cbn;
      try (right; right; right; split; [reflexivity|];
           eexists; split; [reflexivity | now right]).
    + (* a string *)
      destruct (chars_of (Py.str_slice_to text n)) as [|c cs] eqn:E; cbn.
      * left. split; [reflexivity|]. exists [], []. repeat split. simpl. lia.
      * assert (Hc : exists ch, c = JStr ch).
        { destruct (Py.str_slice_to text n); inversion E; eauto. }
        destruct Hc as [ch ->]. cbn.
        right. right. right. split; [reflexivity|].
        eexists. split; [reflexivity | left; eauto].
    + (* a list *)
      destruct (for_each process_result (Py.slice_to items n)) as [rs|e] eqn:E; cbn.
      * left. split; [reflexivity|]. exists (Py.slice_to items n), rs.
        repeat split; [assumption|]. intro Hn. unfold Py.slice_to.
        destruct (Z.ltb_spec n 0); [lia | apply firstn_le_length].
      * apply SearchFacts.for_each_raise in E as [hit [_ Hhit]].
        apply process_result_escapes in Hhit as [attr ->]. cbn.
        right. right. right. split; [reflexivity|].
        eexists. split; [reflexivity | left; eauto].
    + (* an object *)
      destruct hs; cbn.
      * right. right. left. eauto.
      * right. right. right. split; [reflexivity|].
        eexists. split; [reflexivity | now right].
Qed.

(** X6: no [RequestException] and no [KeyError] leaves [search_serpapi]: an
    exception that reaches the caller is an [AttributeError] or a
    [TypeError], and then the request is the only event, nothing having been
    reported to the user. *)
Theorem search_escapes (hs : bool) (query key : string) (n : Z)
    (region : option string) (o : outcome) (evs : list event) (e : exn) :
  search_serpapi hs query key n region o = (evs, Raise e) ->
  escapes_search e
  /\ evs = [HttpGet base_url (request_params query key n region)].
Proof.
  intro H.
  destruct (search_cases hs query key n region o)
    as [[_ [? [? [Hs _]]]]|[[? [_ Hs]]|[[? [_ Hs]]|[Hev [e' [Hs He]]]]]];
    rewrite H in *; simpl in *; try discriminate.
  inversion Hs; subst. split; [assumption | reflexivity].
Qed.

Lemma search_escapes_witness :
  escapes_search (AttributeError "get")
  /\ [HttpGet base_url (request_params "q" "k" 10 None)]
     = [HttpGet base_url (request_params "q" "k" 10 None)].
Proof.
  apply (search_escapes false "q" "k" 10 None
           (Responded 200 (Some (JArr [])))).
  reflexivity.
Defined.

(** X7: an error is reported at most once per search, after the request, and
    a search that reported one returns the empty list. *)
Theorem search_report_means_empty (hs : bool) (query key : string) (n : Z)
    (region : option string) (o : outcome) :
  let request := HttpGet base_url (request_params query key n region) in
  let s := search_serpapi hs query key n region o in
  fst s = [request]
  \/ (exists prefix e, fst s = [request; StErrorExn prefix e] /\ snd s = Return []).
Proof.
  intros request s.
  destruct (search_cases hs query key n region o)
    as [[Hev _]|[[e [Hev Hs]]|[[e [Hev Hs]]|[Hev _]]]]; eauto.
Qed.

(** X8: with [num_results >= 0] a search never returns more than
    [num_results] records. *)
Theorem search_result_cap (hs : bool) (query key : string) (n : Z)
    (region : option string) (o : outcome) (evs : list event)
    (rs : list ResultRecord) :
  0 <= n ->
  search_serpapi hs query key n region o = (evs, Return rs) ->
  (List.length rs <= Z.to_nat n)%nat.
Proof.
  intros Hn H.
  destruct (search_cases hs query key n region o)
    as [[_ [hits [rs' [Hs [Hloop Hcap]]]]]|[[? [_ Hs]]|[[? [_ Hs]]|[_ [? [Hs _]]]]]];
    rewrite H in *; simpl in *; inversion Hs; subst; simpl; try lia.
  apply QueryEdge.for_each_length in Hloop. specialize (Hcap Hn). lia.
Qed.

Lemma search_result_cap_witness :
  (List.length
     [ {| selected := false; title := JStr "a"; summary := "No summary available";
          url := JStr "No URL available" |} ] <= Z.to_nat 1)%nat.
Proof.
  apply (search_result_cap true "q" "k" 1 None
           (Responded 200
              (Some (JObj [("organic_results",
                            JArr [JObj [("title", JStr "a")];
                                  JObj [("title", JStr "b")]])])))
           [HttpGet base_url (request_params "q" "k" 1 None)]).
  - lia.
  - reflexivity.
Defined.

(** X9: when the status is 2xx, [organic_results] is a list (or is missing,
    which counts as the empty list) and the hits within the first
    [num_results] are objects whose [snippet], if present, is a string, the
    search returns one record per such hit and reports nothing.  Hits beyond
    the first [num_results] are never looked at. *)
Theorem search_well_formed (hs : bool) (query key : string) (n : Z)
    (region : option string) (status : Z) (fields : list (string * json))
    (hits : list json) :
  200 <= status < 300 ->
  dict_get "organic_results" fields (JArr []) = JArr hits ->
  Forall well_formed_hit (Py.slice_to hits n) ->
  exists rs,
    search_serpapi hs query key n region (Responded status (Some (JObj fields)))
    = ([HttpGet base_url (request_params query key n region)], Return rs)
    /\ List.length rs = List.length (Py.slice_to hits n).
Proof.
  intros Hst Hhits Hwf.
  destruct (MainFacts.for_each_total process_result (Py.slice_to hits n))
    as [rs Hrs].
  { intros hit Hin. apply process_well_formed.
    rewrite Forall_forall in Hwf. now apply Hwf. }
  exists rs. split; [|eapply QueryEdge.for_each_length; eassumption].
  unfold search_serpapi, search_attempt, requests_get.
  cbn [bind emit ret lift fst snd app].
  rewrite (SearchFacts.accepted_status status Hst).
  cbn [bind emit ret lift fst snd app response_json organic_results].
  rewrite Hhits. cbn [take_results bind lift app]. rewrite Hrs. reflexivity.
Qed.

Lemma search_well_formed_witness :
  exists rs,
    search_serpapi true "q" "k" 1 None
      (Responded 200
         (Some (JObj [("organic_results",
                       JArr [JObj [("snippet", JStr "s")]; JNull])])))
    = ([HttpGet base_url (request_params "q" "k" 1 None)], Return rs)
    /\ List.length rs = List.length (Py.slice_to [JObj [("snippet", JStr "s")]; JNull] 1).
Proof.
  apply (search_well_formed true "q" "k" 1 None 200
           [("organic_results", JArr [JObj [("snippet", JStr "s")]; JNull])]
           [JObj [("snippet", JStr "s")]; JNull]).
  - lia.
  - reflexivity.
  - change (Forall well_formed_hit [JObj [("snippet", JStr "s")]]).
    constructor; [|constructor].
    exists [("snippet", JStr "s")]. split; [reflexivity|]. right.
    exists "s". reflexivity.
Defined.

End SearchEdge.

(** ** [save_selected_results]: the shape of the file name *)

Module ExportEdge.

Import StrFacts.

Lemma all_chars_app (p : ascii -> bool) (a b : string) :
  all_chars p (a ++ b) = all_chars p a && all_chars p b.
Proof.
  induction a as [|c a IH]; simpl; [reflexivity|].
  now rewrite IH, andb_assoc.
Qed.

Lemma all_chars_filter (p : ascii -> bool) (s : string) :
  all_chars p (Py.filter_chars p s) = true.
Proof.
  induction s as [|c s IH]; simpl; [reflexivity|].
  destruct (p c) eqn:E; simpl; [now rewrite E|assumption].
Qed.

Lemma all_chars_lstrip (p : ascii -> bool) (s : string) :
  all_chars p s = true -> all_chars p (Py.lstrip s) = true.
Proof.
  induction s as [|c s IH]; simpl; [reflexivity|].
  intro H. apply andb_true_iff in H as [Hc Hs].
  destruct (Py.isspace c); [auto|]. simpl. now rewrite Hc, Hs.
Qed.

Lemma all_chars_rstrip (p : ascii -> bool) (s : string) :
  all_chars p s = true -> all_chars p (Py.rstrip s) = true.
Proof.
  induction s as [|c s IH]; simpl; [reflexivity|].
  intro H. apply andb_true_iff in H as [Hc Hs]. specialize (IH Hs).
  destruct (Py.rstrip s) as [|d r].
  - destruct (Py.isspace c); simpl; [reflexivity | now rewrite Hc].
  - change (all_chars p (String c (String d r))) with (p c && all_chars p (String d r)).
    now rewrite Hc, IH.
Qed.

(** Deleting occurrences of a word brings in no new character. *)
Lemma all_chars_delete (p : ascii -> bool) (old : string) (s : string) (skip : nat) :
  all_chars p s = true -> all_chars p (Py.replace_from old "" skip s) = true.
Proof.
  revert skip. induction s as [|c s IH]; intros skip H; [reflexivity|].
  simpl in H. apply andb_true_iff in H as [Hc Hs].
  cbn [Py.replace_from]. destruct skip as [|k]; [|now apply IH].
  destruct (String.prefix old (String c s)).
  - cbn [String.append]. now apply IH.
  - simpl. rewrite Hc. now apply IH.
Qed.

(** Spaces become underscores, one for one, and nothing else changes. *)
Lemma underscore_step (c : ascii) (s : string) :
  Py.replace_from " " "_" O (String c s)
  = String (if Ascii.eqb c " " then "_"%char else c) (Py.replace_from " " "_" O s).
Proof.
  cbn [Py.replace_from String.prefix String.length Nat.pred].
  destruct (ascii_dec " " c) as [<-|Hne].
  - destruct s; reflexivity.
  - destruct (Ascii.eqb_spec c " "); [congruence | reflexivity].
Qed.

Lemma all_chars_underscored (p q : ascii -> bool) (s : string) :
  (forall c, p c = true -> Ascii.eqb c " " = false -> q c = true) ->
  q "_"%char = true ->
  all_chars p s = true ->
  all_chars q (Py.replace " " "_" s) = true.
Proof.
  intros Hpq Hq. unfold Py.replace. cbn [String.eqb Ascii.eqb Bool.eqb].
  change ((" " =? "")%string) with false. cbv iota.
  induction s as [|c s IH]; intro H; [reflexivity|].
  simpl in H. apply andb_true_iff in H as [Hc Hs].
  rewrite underscore_step. cbn [all_chars]. rewrite IH by assumption.
  destruct (Ascii.eqb c " ") eqn:E; [now rewrite Hq|].
  now rewrite Hpq.
Qed.

Lemma all_chars_split_on (p : ascii -> bool) (sep : ascii) (s cur : string) :
  all_chars p cur = true -> all_chars p s = true ->
  Forall (fun w => all_chars p w = true) (Py.split_on_from sep cur s).
Proof.
  revert cur. induction s as [|c s IH]; intros cur Hcur Hs; simpl.
  - constructor; [assumption | constructor].
  - simpl in Hs. apply andb_true_iff in Hs as [Hc Hs].
    destruct (Ascii.eqb c sep).
    + constructor; [assumption | now apply IH].
    + apply IH; [|assumption]. rewrite all_chars_app, Hcur. simpl. now rewrite Hc.
Qed.

Lemma all_chars_join (p : ascii -> bool) (sep : string) (l : list string) :
  all_chars p sep = true ->
  Forall (fun w => all_chars p w = true) l ->
  all_chars p (Py.join sep l) = true.
Proof.
  intros Hsep H. unfold Py.join. induction H as [|w l Hw Hl IH]; [reflexivity|].
  destruct l as [|w2 l]; [exact Hw|].
  change (String.concat sep (w :: w2 :: l))
    with (w ++ sep ++ String.concat sep (w2 :: l)).
  now rewrite !all_chars_app, Hw, Hsep, IH.
Qed.

Lemma Forall_filter {A : Type} (P : A -> Prop) (f : A -> bool) (l : list A) :
  Forall P l -> Forall P (filter f l).
Proof.
  induction 1 as [|x l Hx Hl IH]; simpl; [constructor|].
  destruct (f x); [constructor|]; assumption.
Qed.

(** The text left after the words to remove are deleted. *)
Lemma all_chars_shortened (p : ascii -> bool) (s : string) :
  all_chars p s = true ->
  all_chars p (fold_left (fun acc word => Py.replace word "" acc) words_to_remove s)
  = true.
Proof.
  intro H. unfold words_to_remove. cbn [fold_left]. unfold Py.replace.
  repeat match goal with
         | |- context [(String ?a ?w =? "")%string] =>
             change (String a w =? "")%string with false; cbv iota
         end.
  now repeat apply all_chars_delete.
Qed.

(** X10: whatever the search query, the clean query of the file name is made
    of letters, digits, hyphens and underscores only. *)
Theorem clean_query_charset (search_query : string) :
  all_chars slug_char (clean_query search_query) = true.
Proof.
  unfold clean_query.
  apply all_chars_join; [reflexivity|].
  apply Forall_filter, all_chars_split_on; [reflexivity|].
  apply all_chars_shortened.
  apply (all_chars_underscored filename_char).
  - intros c Hc Hsp. unfold filename_char in Hc. unfold slug_char.
    rewrite Hsp in Hc.
    destruct (Py.isalnum c), (Ascii.eqb c "-"), (Ascii.eqb c "_"); auto.
  - reflexivity.
  - apply all_chars_rstrip, all_chars_lstrip, all_chars_filter.
Qed.

(** The pieces [split] returns hold no separator. *)
Lemma split_on_pieces (s cur : string) :
  all_chars not_underscore cur = true ->
  Forall (fun w => all_chars not_underscore w = true) (Py.split_on_from "_" cur s).
Proof.
  revert cur. induction s as [|c s IH]; intros cur Hcur; simpl.
  - constructor; [assumption | constructor].
  - destruct (Ascii.eqb c "_") eqn:E.
    + constructor; [assumption | now apply IH].
    + apply IH. rewrite all_chars_app, Hcur. simpl.
      unfold not_underscore. now rewrite E.
Qed.

Lemma split_on_run (w cur rest : string) :
  all_chars not_underscore w = true ->
  Py.split_on_from "_" cur (w ++ rest) = Py.split_on_from "_" (cur ++ w) rest.
Proof.
  revert cur. induction w as [|c w IH]; intros cur Hw; simpl.
  - now rewrite append_nil_r.
  - simpl in Hw. apply andb_true_iff in Hw as [Hc Hw].
    unfold not_underscore in Hc. apply negb_true_iff in Hc.
    rewrite Hc, IH by assumption. now rewrite append_assoc.
Qed.

(** Splitting pieces joined by underscores gives the pieces back. *)
Lemma split_on_join (ws : list string) (w cur : string) :
  Forall (fun x => all_chars not_underscore x = true) (w :: ws) ->
  Py.split_on_from "_" cur (Py.join "_" (w :: ws)) = (cur ++ w) :: ws.
Proof.
  revert w cur. induction ws as [|w2 ws IH]; intros w cur H;
    inversion H as [|? ? Hw Hws]; subst.
  - unfold Py.join. simpl. rewrite <- (append_nil_r w) at 1.
    now rewrite split_on_run.
  - change (Py.join "_" (w :: w2 :: ws))
      with (w ++ String "_" (Py.join "_" (w2 :: ws))).
    rewrite split_on_run by assumption.
    cbn [Py.split_on_from]. change (Ascii.eqb "_" "_") with true. cbv iota.
    f_equal. now rewrite (IH w2 "").
Qed.

(** X11: the clean query never starts or ends with an underscore and never
    has two in a row: unless it is empty, splitting it at underscores gives no
    empty segment. *)
Theorem clean_query_segments (search_query : string) :
  clean_query search_query = ""
  \/ Forall (fun w => w <> "") (Py.split_on "_" (clean_query search_query)).
Proof.
  unfold clean_query.
  set (shortened := fold_left (fun acc word => Py.replace word "" acc)
                      words_to_remove _).
  assert (Hfree : Forall (fun w => all_chars not_underscore w = true)
                    (filter Py.truthy (Py.split_on "_" shortened)))
    by (apply Forall_filter, split_on_pieces; reflexivity).
  assert (Hne : Forall (fun w => w <> "")
                  (filter Py.truthy (Py.split_on "_" shortened))).
  { apply Forall_forall. intros w Hin. apply filter_In in Hin as [_ Hw].
    unfold Py.truthy in Hw. intros ->. discriminate. }
  destruct (filter Py.truthy (Py.split_on "_" shortened)) as [|w ws].
  - now left.
  - right. unfold Py.split_on. now rewrite split_on_join.
Qed.

Lemma length_append (a b : string) :
  String.length (a ++ b) = (String.length a + String.length b)%nat.
Proof. induction a as [|c a IH]; simpl; [reflexivity | now rewrite IH]. Qed.

Lemma length_slice (s : string) (m : nat) :
  (String.length (String.substring 0 m s) <= m)%nat.
Proof.
  revert s. induction m as [|m IH]; intro s; destruct s as [|c s]; simpl;
    try lia.
  specialize (IH s). lia.
Qed.

Lemma length_filter_chars (keep : ascii -> bool) (s : string) :
  (String.length (Py.filter_chars keep s) <= String.length s)%nat.
Proof.
  induction s as [|c s IH]; simpl; [lia|]. destruct (keep c); simpl; lia.
Qed.

Lemma length_lstrip (s : string) :
  (String.length (Py.lstrip s) <= String.length s)%nat.
Proof.
  induction s as [|c s IH]; simpl; [lia|]. destruct (Py.isspace c); simpl; lia.
Qed.

Lemma length_rstrip (s : string) :
  (String.length (Py.rstrip s) <= String.length s)%nat.
Proof.
  induction s as [|c s IH]; simpl; [lia|].
  destruct (Py.rstrip s) as [|d r].
  - destruct (Py.isspace c); simpl; lia.
  - change (String.length (String c (String d r)))
      with (S (String.length (String d r))). lia.
Qed.

Lemma length_underscored (s : string) :
  String.length (Py.replace " " "_" s) = String.length s.
Proof.
  unfold Py.replace. change ((" " =? "")%string) with false. cbv iota.
  induction s as [|c s IH]; [reflexivity|].
  rewrite underscore_step. simpl. now rewrite IH.
Qed.

Lemma length_delete (old : string) (s : string) (skip : nat) :
  (String.length (Py.replace_from old "" skip s) <= String.length s)%nat.
Proof.
  revert skip. induction s as [|c s IH]; intro skip; [simpl; lia|].
  cbn [Py.replace_from]. destruct skip as [|k].
  - destruct (String.prefix old (String c s)).
    + cbn [String.append]. specialize (IH (Nat.pred (String.length old))).
      simpl. lia.
    + specialize (IH O). simpl. lia.
  - specialize (IH k). simpl. lia.
Qed.

Lemma length_shortened (s : string) :
  (String.length
     (fold_left (fun acc word => Py.replace word "" acc) words_to_remove s)
   <= String.length s)%nat.
Proof.
  unfold words_to_remove. cbn [fold_left]. unfold Py.replace.
  repeat match goal with
         | |- context [(String ?a ?w =? "")%string] =>
             change (String a w =? "")%string with false; cbv iota
         end.
  repeat (eapply Nat.le_trans; [apply length_delete|]). lia.
Qed.

(** The characters of a list of pieces. *)
Lemma split_on_size (sep : ascii) (s cur : string) :
  (list_sum (map String.length (Py.split_on_from sep cur s))
   + List.length (Py.split_on_from sep cur s)
   = String.length cur + String.length s + 1)%nat.
Proof.
  revert cur. induction s as [|c s IH]; intro cur; simpl; [lia|].
  destruct (Ascii.eqb c sep); simpl.
  - specialize (IH ""). simpl in IH. lia.
  - rewrite IH, length_append. simpl. lia.
Qed.

Lemma join_size (l : list string) :
  (String.length (Py.join "_" l)
   <= list_sum (map String.length l) + List.length l - 1)%nat.
Proof.
  unfold Py.join. induction l as [|w l IH]; [simpl; lia|].
  destruct l as [|w2 l]; [simpl; lia|].
  change (String.concat "_" (w :: w2 :: l))
    with (w ++ "_" ++ String.concat "_" (w2 :: l)).
  rewrite !length_append. simpl in *. lia.
Qed.

Lemma filter_size (f : string -> bool) (l : list string) :
  (list_sum (map String.length (filter f l)) + List.length (filter f l)
   <= list_sum (map String.length l) + List.length l)%nat.
Proof.
  induction l as [|w l IH]; simpl; [lia|]. destruct (f w); simpl; lia.
Qed.

(** X12: the clean query is never longer than the thirty characters cut from
    the search query. *)
Theorem clean_query_length (search_query : string) :
  (String.length (clean_query search_query) <= 30)%nat.
Proof.
  unfold clean_query.
  set (kept := Py.strip _).
  set (shortened := fold_left _ words_to_remove _).
  assert (Hkept : (String.length kept <= 30)%nat).
  { unfold kept, Py.strip.
    eapply Nat.le_trans; [apply length_rstrip|].
    eapply Nat.le_trans; [apply length_lstrip|].
    eapply Nat.le_trans; [apply length_filter_chars|].
    unfold Py.str_slice_to. change (30 <? 0) with false. cbv iota.
    apply (length_slice search_query 30). }
  assert (Hshort : (String.length shortened <= 30)%nat).
  { unfold shortened.
    eapply Nat.le_trans; [apply length_shortened|].
    now rewrite length_underscored. }
  pose proof (join_size (filter Py.truthy (Py.split_on "_" shortened))) as Hj.
  pose proof (filter_size Py.truthy (Py.split_on "_" shortened)) as Hf.
  pose proof (split_on_size "_" shortened "") as Hs.
  unfold Py.split_on in *. simpl in Hs. lia.
Qed.

(** Replacing spaces leaves none. *)
Lemma underscored_no_space (s : string) :
  all_chars not_space_char (Py.replace " " "_" s) = true.
Proof.
  unfold Py.replace. change ((" " =? "")%string) with false. cbv iota.
  induction s as [|c s IH]; [reflexivity|].
  rewrite underscore_step. cbn [all_chars]. rewrite IH.
  unfold not_space_char. destruct (Ascii.eqb c " ") eqn:E; [reflexivity|].
  now rewrite E.
Qed.

(** X13: whatever regions are given, the region part of the file name holds
    no space character. *)
Theorem region_str_no_space (selected_regions : list string) :
  all_chars not_space_char (region_str selected_regions) = true.
Proof. unfold region_str. apply underscored_no_space. Qed.

End ExportEdge.

(** ** [main]: what a run does and does not do *)

Module MainEdge.

Import StrFacts IoFacts.

(** The query of a run, once regions or topics are checked. *)
Lemma run_query_built (u : inputs) :
  exists query,
    build_search_query (checked_keys REGIONS (region_checked u))
      (checked_keys TARGETS (target_checked u)) (additional_terms u)
    = Return query.
Proof. apply MainFacts.query_built. Qed.

(** X14: a search started without an API key, or with nothing checked and no
    free text, is refused: no request is sent, the results table is not
    shown, no file is written and the stored results stay as they were. *)
Theorem search_refused (hs : bool) (u : inputs) (session : option DataFrame) :
  search_clicked u = true ->
  api_key u = ""
  \/ (checked_keys REGIONS (region_checked u) = []
      /\ checked_keys TARGETS (target_checked u) = []
      /\ additional_terms u = "") ->
  requests_of (fst (main hs u session)) = []
  /\ forallb not_data_editor (fst (main hs u session)) = true
  /\ forallb not_file_write (fst (main hs u session)) = true
  /\ (exists text, In (StError text) (fst (main hs u session)))
  /\ snd (main hs u session) = Return session.
Proof.
  intros Hclick Hbad. unfold main.
  destruct (run_query_built u) as [query Hquery]. rewrite Hquery, Hclick.
  unfold search_action.
  destruct Hbad as [Hkey|[Hr [Ht Hterms]]].
  - rewrite Hkey. cbn [Py.truthy String.eqb negb].
    destruct (nonempty (checked_keys REGIONS (region_checked u))
              || nonempty (checked_keys TARGETS (target_checked u)));
      cbn; repeat split; eauto.
  - rewrite Hr, Ht, Hterms. cbn [nonempty orb Py.truthy String.eqb negb].
    destruct (negb (Py.truthy (api_key u))); cbn; repeat split; eauto.
Qed.

Lemma search_refused_witness :
  requests_of (fst (main true no_key_run (Some selected_table))) = []
  /\ forallb not_file_write (fst (main true no_key_run (Some selected_table))) = true
  /\ snd (main true no_key_run (Some selected_table)) = Return (Some selected_table).
Proof.
  destruct (search_refused true no_key_run (Some selected_table))
    as [Hreq [_ [Hfile [_ Hres]]]].
  - reflexivity.
  - left. reflexivity.
  - repeat split; assumption.
Defined.

(** X15: a search started on free text alone, with a key entered and nothing
    checked, passes the checks and then fails: the query was never built, so
    the run raises [UnboundLocalError] on [search_query] before any request
    is sent. *)
Theorem search_free_text_only_raises (hs : bool) (u : inputs)
    (session : option DataFrame) :
  search_clicked u = true ->
  api_key u <> "" ->
  additional_terms u <> "" ->
  checked_keys REGIONS (region_checked u) = [] ->
  checked_keys TARGETS (target_checked u) = [] ->
  main hs u session = ([], Raise (UnboundLocalError "search_query")).
Proof.
  intros Hclick Hkey Hterms Hr Ht. unfold main, search_action.
  rewrite Hr, Ht, Hclick. unfold Py.truthy.
  rewrite (eqb_nil_false _ Hkey), (eqb_nil_false _ Hterms). reflexivity.
Qed.

Lemma search_free_text_only_raises_witness :
  main true free_text_run None = ([], Raise (UnboundLocalError "search_query")).
Proof.
  apply (search_free_text_only_raises true free_text_run None);
    try reflexivity; discriminate.
Defined.

(** X16: saving a selected row while no region and no topic is checked fails
    the same way: the table is shown, then the run raises
    [UnboundLocalError] on [search_query] and no file is written. *)
Theorem save_nothing_checked_raises (hs : bool) (u : inputs) (df : DataFrame) :
  search_clicked u = false ->
  save_clicked u = true ->
  checked_keys REGIONS (region_checked u) = [] ->
  checked_keys TARGETS (target_checked u) = [] ->
  any_selected (data_editor u df (summary_length u)) = true ->
  main hs u (Some df)
  = ([StDataEditor df (summary_length u)], Raise (UnboundLocalError "search_query")).
Proof.
  intros Hsearch Hsave Hr Ht Hsel. unfold main.
  rewrite Hr, Ht, Hsearch. cbn [nonempty orb bind ret app].
  unfold results_view. rewrite Hsave. unfold save_action. rewrite Hsel.
  reflexivity.
Qed.

Lemma save_nothing_checked_raises_witness :
  main true unchecked_save_run (Some unselected_table)
  = ([StDataEditor unselected_table 300], Raise (UnboundLocalError "search_query")).
Proof.
  apply (save_nothing_checked_raises true unchecked_save_run unselected_table);
    reflexivity.
Defined.

(** The exporter sends no request. *)
Lemma run_without_search_quiet (hs : bool) (u : inputs) (session : option DataFrame) :
  search_clicked u = false -> quiet not_request (main hs u session).
Proof.
  intro H. unfold main. rewrite H.
  unfold results_view, save_action, save_selected_results, file_op.
  repeat quiet_step.
Qed.

(** X17: a run in which the search button is not pressed sends no request to
    the provider. *)
Theorem no_search_no_request (hs : bool) (u : inputs) (session : option DataFrame) :
  search_clicked u = false ->
  requests_of (fst (main hs u session)) = [].
Proof.
  intro H. apply requests_quiet. now apply run_without_search_quiet.
Qed.

Lemma no_search_no_request_witness :
  requests_of (fst (main true unchecked_save_run (Some unselected_table))) = [].
Proof.
  apply (no_search_no_request true unchecked_save_run (Some unselected_table)).
  reflexivity.
Defined.

(** X18: a run in which the save button is not pressed writes no file,
    whatever the search does. *)
Theorem no_save_no_file (hs : bool) (u : inputs) (session : option DataFrame) :
  save_clicked u = false ->
  forallb not_file_write (fst (main hs u session)) = true.
Proof.
  intro H. change (quiet not_file_write (main hs u session)).
  unfold main, search_action, results_view. rewrite H.
  repeat first [apply MainFacts.search_no_file_write | quiet_step].
Qed.

Lemma no_save_no_file_witness :
  forallb not_file_write (fst (main true search_run (Some selected_table))) = true.
Proof.
  apply (no_save_no_file true search_run (Some selected_table)). reflexivity.
Defined.











(** X20: when a search is started with a key and a region checked, the stored
    results after the run are decided by the search alone: a non-empty list of
    records replaces them, an empty list (nothing found, or an error that was
    reported) leaves them as they were, and an exception of the search ends
    the run.  This is for a run in which the save button is not pressed as
    well, or in which no file operation fails. *)
Theorem search_updates_session (hs : bool) (u : inputs) (session : option DataFrame)
    (first : string) (rest : list string) :
  search_clicked u = true ->
  api_key u <> "" ->
  checked_keys REGIONS (region_checked u) = first :: rest ->
  save_clicked u = false \/ (forall ev, file_system u ev = true) ->
  exists code query,
    dict_lookup first REGIONS = Some code
    /\ build_search_query (first :: rest) (checked_keys TARGETS (target_checked u))
         (additional_terms u) = Return query
    /\ snd (main hs u session)
       = match snd (search_serpapi hs query (api_key u) (num_results u) (Some code)
                      (provider u)) with
         | Return rs => Return (if nonempty rs then Some rs else session)
         | Raise e => Raise e
         end.
Proof.
  intros Hclick Hkey Hregions Hsafe.
  assert (Hin : In first (map fst REGIONS)).
  { assert (H : In first (checked_keys REGIONS (region_checked u)))
      by (rewrite Hregions; now left).
    now apply filter_In in H. }
  destruct (MainFacts.region_code_known first Hin) as [code [Hcode Htruthy]].
  destruct (run_query_built u) as [query Hquery]. rewrite Hregions in Hquery.
  exists code, query. split; [|split; [exact Hquery|]].
  - unfold dict_item in Hcode.
    destruct (dict_lookup first REGIONS); now inversion Hcode.
  - assert (Hk : Py.truthy (api_key u) = true).
    { unfold Py.truthy. now rewrite eqb_nil_false. }
    assert (Hview : forall s, exists evs,
               results_view u (first :: rest) (Some query) s = (evs, Return tt)).
    { intro s. unfold results_view, save_action, save_selected_results, file_op.
      destruct s as [df|]; [|eexists; reflexivity].
      destruct (save_clicked u) eqn:Hsave; [|eexists; reflexivity].
      destruct Hsafe as [Hoff|Hfs]; [discriminate|].
      destruct (any_selected (data_editor u df (summary_length u)));
        [|eexists; reflexivity].
      repeat (cbn [bind lift read_local emit ret app]; rewrite ?Hfs).
      eexists. reflexivity. }
    unfold main. rewrite Hregions. cbn [nonempty orb]. rewrite Hquery.
    rewrite snd_bind. cbn [bind lift emit ret fst snd app].
    rewrite Hclick, snd_bind. unfold search_action.
    rewrite Hk, Hcode. cbn [negb nonempty orb rbind read_local].
    do 2 (rewrite snd_bind; cbn [lift fst snd]).
    rewrite snd_bind.
    destruct (snd (search_serpapi hs query (api_key u) (num_results u) (Some code)
                     (provider u))) as [rs|e]; [|reflexivity].
    destruct (nonempty rs); cbn [ret bind emit snd fst app].
    + destruct (Hview (Some rs)) as [evs ->]. reflexivity.
    + destruct (Hview session) as [evs ->]. reflexivity.
Qed.

Lemma search_updates_session_witness :
  exists code query,
    dict_lookup "Poland" REGIONS = Some code
    /\ build_search_query ["Poland"; "France"]
         (checked_keys TARGETS (target_checked search_run))
         (additional_terms search_run) = Return query
    /\ snd (main true search_run (Some selected_table))
       = match snd (search_serpapi true query (api_key search_run)
                      (num_results search_run) (Some code) (provider search_run)) with
         | Return rs => Return (if nonempty rs then Some rs else Some selected_table)
         | Raise e => Raise e
         end.
Proof.
  apply (search_updates_session true search_run (Some selected_table)
           "Poland" ["France"]).
  - reflexivity.
  - discriminate.
  - reflexivity.
  - left. reflexivity.
Defined.

(** X21: a save with a row selected and a region checked, in a run without
    a search and in which no file operation fails, writes one file: it is named after the checked regions, the
    query built in this run and the clock, its header records that query, and
    its table holds the selected rows of the edited table, in order; the file
    is then read back for the download button and the stored results are
    untouched. *)
Theorem save_trace (hs : bool) (u : inputs) (df : DataFrame)
    (first : string) (rest : list string) :
  search_clicked u = false ->
  save_clicked u = true ->
  checked_keys REGIONS (region_checked u) = first :: rest ->
  any_selected (data_editor u df (summary_length u)) = true ->
  (forall ev, file_system u ev = true) ->
  exists query,
    build_search_query (first :: rest) (checked_keys TARGETS (target_checked u))
      (additional_terms u) = Return query
    /\ let name := export_filename query (first :: rest) (clock u) in
       main hs u (Some df)
       = ([ StTextArea "Generated search query:" query;
            StDataEditor df (summary_length u);
            FileOpen name "w";
            FileWrite name ("# Search Query: " ++ query ++ nl);
            FileWrite name ("# Regions: " ++ Py.join ", " (first :: rest) ++ nl);
            FileWrite name ("# Timestamp: " ++ clock u ++ nl);
            FileWrite name ("#" ++ str_repeat "=" 50 ++ nl);
            ToCsv name "a" (selected_rows (data_editor u df (summary_length u)));
            StSuccess ("Selected results saved to " ++ name);
            FileOpen name "r";
            StDownloadButton name ],
          Return (Some df)).
Proof.
  intros Hsearch Hsave Hregions Hsel Hfs.
  destruct (run_query_built u) as [query Hquery]. rewrite Hregions in Hquery.
  exists query. split; [exact Hquery|].
  unfold main. rewrite Hregions. cbn [nonempty orb]. rewrite Hquery, Hsearch.
  cbn [bind lift emit ret app]. unfold results_view. rewrite Hsave.
  unfold save_action, save_selected_results, file_op. rewrite Hsel.
  repeat (cbn [bind lift read_local emit ret app]; rewrite ?Hfs).
  reflexivity.
Qed.

Lemma save_trace_witness :
  exists query,
    build_search_query ["Poland"]
      (checked_keys TARGETS (target_checked selected_save_run))
      (additional_terms selected_save_run) = Return query
    /\ let name := export_filename query ["Poland"] (clock selected_save_run) in
       main true selected_save_run (Some selected_table)
       = ([ StTextArea "Generated search query:" query;
            StDataEditor selected_table (summary_length selected_save_run);
            FileOpen name "w";
            FileWrite name ("# Search Query: " ++ query ++ nl);
            FileWrite name ("# Regions: " ++ Py.join ", " ["Poland"] ++ nl);
            FileWrite name ("# Timestamp: " ++ clock selected_save_run ++ nl);
            FileWrite name ("#" ++ str_repeat "=" 50 ++ nl);
            ToCsv name "a"
              (selected_rows (data_editor selected_save_run selected_table
                                (summary_length selected_save_run)));
            StSuccess ("Selected results saved to " ++ name);
            FileOpen name "r";
            StDownloadButton name ],
          Return (Some selected_table)).
Proof.
  apply (save_trace true selected_save_run selected_table "Poland" []);
    reflexivity.
Defined.

End MainEdge.
